(** * Salah Travel & Study: tool adapters and the agent entry hook

    A shallow embedding of [src/tools.py] (the four tool adapters and their
    helpers) and of the callback layer of [src/agents.py] (the entry hook
    attached to [root_agent]), followed by the properties established about
    them.

    Conventions of the embedding.
    - Python values that cross the adapter boundary (JSON bodies, returned
      dicts and lists) are terms of [Py.value]; a dict literal is an
      association list in insertion order with distinct keys.
    - [str] is a UTF-8 byte string.  [len], indexing and slicing of a [str]
      count code points ([Py.utf8_chars]).  On a string of ASCII characters
      [lower] and [upper] map the letters; on any other string they are the
      Unicode case mapping of the Python runtime, which is no part of the
      source and is a parameter of the model ([Py.unicode_case]).
    - A Python computation that may raise returns [Py.res A = exn + A]; one
      that also performs HTTP requests lives in the monad [Http.M], which
      threads the log of the requests made so far.
    - The network is an oracle [http] that maps the requests made so far and
      the present request to a response or to the exception [requests] raises.
    - Console output ([print]) is not modelled. *)

From Stdlib Require Import ZArith Ascii String Floats.
From stdpp Require Import gmap strings list pretty.

Local Open Scope Z_scope.
Set Warnings "-register-all".

(* ===================================================================== *)
(** ** Python values, exceptions and the dynamic operations used by the code *)
(* ===================================================================== *)

Module Py.

Inductive value : Type :=
  | VNone
  | VBool (b : bool)
  | VInt (n : Z)
  | VFloat (f : PrimFloat.float)
  | VStr (s : string)
  | VList (l : list value)
  | VDict (d : list (string * value)).

(** Exception classes the code distinguishes.  [HTTPError] is a subclass of
    [RequestException]; all of them are subclasses of [Exception]. *)
Inductive exn_class : Type :=
  | RequestException
  | HTTPError (status_code : Z)
  | TypeError
  | KeyError
  | IndexError
  | AttributeError
  | ValueError.

Record exn : Type := Exn { cls : exn_class; msg : string }.

Definition is_RequestException (e : exn) : bool :=
  match cls e with RequestException | HTTPError _ => true | _ => false end.

Definition res (A : Type) : Type := exn + A.

Definition ok {A} (a : A) : res A := inr a.
Definition raise {A} (c : exn_class) (m : string) : res A := inl (Exn c m).

Definition res_bind {A B} (m : res A) (f : A -> res B) : res B :=
  match m with inl e => inl e | inr a => f a end.

Definition type_name (v : value) : string :=
  match v with
  | VNone => "NoneType"
  | VBool _ => "bool"
  | VInt _ => "int"
  | VFloat _ => "float"
  | VStr _ => "str"
  | VList _ => "list"
  | VDict _ => "dict"
  end.

(** *** Strings *)

Definition ascii_lower (c : ascii) : ascii :=
  let n := N_of_ascii c in
  if ((65 <=? n) && (n <=? 90))%N then ascii_of_N (n + 32) else c.

Definition ascii_upper (c : ascii) : ascii :=
  let n := N_of_ascii c in
  if ((97 <=? n) && (n <=? 122))%N then ascii_of_N (n - 32) else c.

Fixpoint str_map (f : ascii -> ascii) (s : string) : string :=
  match s with
  | EmptyString => EmptyString
  | String c s' => String (f c) (str_map f s')
  end.

Fixpoint is_ascii (s : string) : bool :=
  match s with
  | EmptyString => true
  | String c s' => (N_of_ascii c <? 128)%N && is_ascii s'
  end.

(** The case mapping of the runtime on strings that hold a non-ASCII
    character ([str.lower] and [str.upper] follow the Unicode tables there,
    may change the length of the string and depend on the context of a
    letter). *)
Class unicode_case : Type := UnicodeCase {
  unicode_lower : string -> string;
  unicode_upper : string -> string
}.

(** [s.lower()], [s.upper()] *)
Definition lower {unicode : unicode_case} (s : string) : string :=
  if is_ascii s then str_map ascii_lower s else unicode_lower s.

Definition upper {unicode : unicode_case} (s : string) : string :=
  if is_ascii s then str_map ascii_upper s else unicode_upper s.

Fixpoint is_substring (needle s : string) : bool :=
  String.prefix needle s ||
  match s with
  | EmptyString => false
  | String _ s' => is_substring needle s'
  end.

(** A UTF-8 continuation byte is [10xxxxxx]. *)
Definition is_continuation (c : ascii) : bool :=
  let n := N_of_ascii c in ((128 <=? n) && (n <? 192))%N.

Definition starts_with_continuation (s : string) : bool :=
  match s with
  | EmptyString => false
  | String c _ => is_continuation c
  end.

(** The code points of a string, each as the string of its bytes. *)
Fixpoint utf8_chars (s : string) : list string :=
  match s with
  | EmptyString => []
  | String c s' =>
      let rest := utf8_chars s' in
      if starts_with_continuation s' then
        match rest with
        | r :: rs => String c r :: rs
        | [] => [String c EmptyString]
        end
      else String c EmptyString :: rest
  end.

Definition str_concat (l : list string) : string :=
  foldr String.append EmptyString l.

Fixpoint str_join (sep : string) (l : list string) : string :=
  match l with
  | [] => EmptyString
  | [x] => x
  | x :: xs => x +:+ sep +:+ str_join sep xs
  end.

(** *** Dicts *)

Fixpoint dict_lookup (k : string) (d : list (string * value)) : option value :=
  match d with
  | [] => None
  | (k', v) :: d' => if String.eqb k k' then Some v else dict_lookup k d'
  end.

Definition dict_keys (d : list (string * value)) : list string := d.*1.

(** *** Truth value, [bool(v)] *)

Definition truthy (v : value) : bool :=
  match v with
  | VNone => false
  | VBool b => b
  | VInt n => negb (n =? 0)
  | VFloat f => negb (PrimFloat.eqb f PrimFloat.zero)
  | VStr s => negb (String.eqb s EmptyString)
  | VList l => match l with [] => false | _ => true end
  | VDict d => match d with [] => false | _ => true end
  end.

(** *** [k in v] for a string [k] *)

Definition is_str (k : string) (v : value) : bool :=
  match v with VStr s => String.eqb k s | _ => false end.

Definition contains (k : string) (v : value) : res bool :=
  match v with
  | VDict d => ok (bool_decide (k ∈ dict_keys d))
  | VList l => ok (existsb (is_str k) l)
  | VStr s => ok (is_substring k s)
  | _ => raise TypeError
           ("argument of type '" +:+ type_name v +:+ "' is not iterable")
  end.

(** *** [v[k]] for a string [k] *)

Definition getitem_str (v : value) (k : string) : res value :=
  match v with
  | VDict d =>
      match dict_lookup k d with
      | Some x => ok x
      | None => raise KeyError ("'" +:+ k +:+ "'")
      end
  | VList _ => raise TypeError "list indices must be integers or slices, not str"
  | VStr _ => raise TypeError "string indices must be integers, not 'str'"
  | _ => raise TypeError
           ("'" +:+ type_name v +:+ "' object is not subscriptable")
  end.

(** *** [v[0]] *)

Definition getitem_0 (v : value) : res value :=
  match v with
  | VList l =>
      match l with
      | x :: _ => ok x
      | [] => raise IndexError "list index out of range"
      end
  | VStr s =>
      match utf8_chars s with
      | c :: _ => ok (VStr c)
      | [] => raise IndexError "string index out of range"
      end
  | VDict _ => raise KeyError "0"
  | _ => raise TypeError
           ("'" +:+ type_name v +:+ "' object is not subscriptable")
  end.

(** *** [len(v)] *)

Definition len (v : value) : res Z :=
  match v with
  | VDict d => ok (Z.of_nat (length d))
  | VList l => ok (Z.of_nat (length l))
  | VStr s => ok (Z.of_nat (length (utf8_chars s)))
  | _ => raise TypeError
           ("object of type '" +:+ type_name v +:+ "' has no len()")
  end.

(** *** [v.get(k, default)] *)

Definition get (v : value) (k : string) (dflt : value) : res value :=
  match v with
  | VDict d => ok (default dflt (dict_lookup k d))
  | _ => raise AttributeError
           ("'" +:+ type_name v +:+ "' object has no attribute 'get'")
  end.

(** *** [for x in v]: the items an iteration yields *)

Definition iter (v : value) : res (list value) :=
  match v with
  | VList l => ok l
  | VDict d => ok (VStr <$> dict_keys d)
  | VStr s => ok (VStr <$> utf8_chars s)
  | _ => raise TypeError
           ("'" +:+ type_name v +:+ "' object is not iterable")
  end.

(** *** [v[:n]].  Slicing a dict raises ([TypeError] up to Python 3.11,
    [KeyError] from 3.12; both are plain [Exception]s). *)

Definition slice_to (n : nat) (v : value) : res value :=
  match v with
  | VList l => ok (VList (take n l))
  | VStr s => ok (VStr (str_concat (take n (utf8_chars s))))
  | VDict _ => raise TypeError "unhashable type: 'slice'"
  | _ => raise TypeError
           ("'" +:+ type_name v +:+ "' object is not subscriptable")
  end.

(** *** [sep.join(v)] *)

Fixpoint join_items (i : nat) (l : list value) : res (list string) :=
  match l with
  | [] => ok []
  | VStr s :: l' => res_bind (join_items (S i) l') (fun r => ok (s :: r))
  | x :: _ => raise TypeError
                ("sequence item " +:+ pretty i +:+ ": expected str instance, "
                 +:+ type_name x +:+ " found")
  end.

Definition join (sep : string) (v : value) : res string :=
  match iter v with
  | inl _ => raise TypeError "can only join an iterable"
  | inr l => res_bind (join_items 0 l) (fun r => ok (str_join sep r))
  end.

(** *** [v + 1] *)

Definition dq : string := String (ascii_of_N 34) EmptyString.

Definition add_one (v : value) : res value :=
  match v with
  | VInt n => ok (VInt (n + 1))
  | VBool b => ok (VInt ((if b then 1 else 0) + 1))
  | VFloat f => ok (VFloat (PrimFloat.add f PrimFloat.one))
  | VStr _ => raise TypeError
                ("can only concatenate str (not " +:+ dq +:+ "int" +:+ dq
                 +:+ ") to str")
  | VList _ => raise TypeError
                ("can only concatenate list (not " +:+ dq +:+ "int" +:+ dq
                 +:+ ") to list")
  | _ => raise TypeError
           ("unsupported operand type(s) for +: '" +:+ type_name v
            +:+ "' and 'int'")
  end.

End Py.

(* ===================================================================== *)
(** ** The [requests] library as seen by the adapters *)
(* ===================================================================== *)

Module Http.
Import Py.

Inductive http_method : Type := GET | POST.

(** One call of [requests.get(url, params=..., timeout=...)] or
    [requests.post(url, json=..., timeout=...)]. *)
Record request : Type := Request {
  method : http_method;
  url : string;
  params : list (string * value);
  json_payload : option value;
  timeout : Z
}.

(** What the adapters read of a [requests.Response]: the status line, the
    URL it was fetched from, and what [response.json()] gives, a value or the
    exception the decoder raises. *)
Record response : Type := Response {
  status_code : Z;
  reason : string;
  response_url : string;
  json : res value
}.

(** The network: the requests made so far and the present one give a
    response, or the exception [requests] raises (connection failure, timeout
    and the like). *)
Definition oracle : Type := list request -> request -> res response.

(** Computations that make requests: the log of requests is threaded. *)
Definition M (A : Type) : Type := list request -> res A * list request.

Definition ret {A} (a : A) : M A := fun log => (inr a, log).

Definition bind {A B} (m : M A) (f : A -> M B) : M B :=
  fun log =>
    match m log with
    | (inl e, log') => (inl e, log')
    | (inr a, log') => f a log'
    end.

Definition lift {A} (r : res A) : M A := fun log => (r, log).

(** [try: m  except Exception as e: h e] *)
Definition try_except {A} (m : M A) (h : exn -> M A) : M A :=
  fun log =>
    match m log with
    | (inl e, log') => h e log'
    | (inr a, log') => (inr a, log')
    end.

Definition send (http : oracle) (rq : request) : M response :=
  fun log => (http log rq, log ++ [rq]).

Definition requests_get (http : oracle) (u : string)
    (ps : list (string * value)) (t : Z) : M response :=
  send http (Request GET u ps None t).

Definition requests_post (http : oracle) (u : string) (payload : value)
    (t : Z) : M response :=
  send http (Request POST u [] (Some payload) t).

(** [response.raise_for_status()] *)
Definition raise_for_status (r : response) : res unit :=
  let line kind :=
    pretty (status_code r) +:+ " " +:+ kind +:+ " Error: " +:+ reason r
    +:+ " for url: " +:+ response_url r in
  if (400 <=? status_code r) && (status_code r <? 500) then
    raise (HTTPError (status_code r)) (line "Client")
  else if (500 <=? status_code r) && (status_code r <? 600) then
    raise (HTTPError (status_code r)) (line "Server")
  else ok tt.

(** [returns Q m]: whenever [m] returns, what it returns satisfies [Q]. *)
Definition returns {A} (Q : A -> Prop) (m : M A) : Prop :=
  forall log, match (m log).1 with inl _ => True | inr a => Q a end.

(** [outcome Q m log]: if [m], run on the log [log], returns, what it returns
    satisfies [Q]. *)
Definition outcome {A} (Q : A -> Prop) (m : M A) (log : list request) : Prop :=
  match (m log).1 with inl _ => True | inr a => Q a end.

End Http.

Declare Scope http_scope.
Delimit Scope http_scope with http.
Notation "x <- m ;; k" := (Http.bind m (fun x => k))
  (at level 100, m at next level, right associativity) : http_scope.
Notation "x <~ r ;; k" := (Http.bind (Http.lift r) (fun x => k))
  (at level 100, r at next level, right associativity) : http_scope.

(* ===================================================================== *)
(** ** [src/tools.py] *)
(* ===================================================================== *)

Module Tools.
Import Py Http.
Local Open Scope http_scope.

(** *** [_get_weather_description] *)

Definition weather_codes : list (Z * (string * string)) :=
  [ (0, ("Clear", "Clear sky"));
    (1, ("Mostly Clear", "Mainly clear"));
    (2, ("Partly Cloudy", "Partly cloudy"));
    (3, ("Cloudy", "Overcast"));
    (45, ("Foggy", "Fog"));
    (48, ("Foggy", "Depositing rime fog"));
    (51, ("Light Drizzle", "Light drizzle"));
    (53, ("Drizzle", "Moderate drizzle"));
    (55, ("Heavy Drizzle", "Dense drizzle"));
    (61, ("Light Rain", "Slight rain"));
    (63, ("Rain", "Moderate rain"));
    (65, ("Heavy Rain", "Heavy rain"));
    (71, ("Light Snow", "Slight snow"));
    (73, ("Snow", "Moderate snow"));
    (75, ("Heavy Snow", "Heavy snow"));
    (80, ("Light Showers", "Slight rain showers"));
    (81, ("Showers", "Moderate rain showers"));
    (82, ("Heavy Showers", "Violent rain showers"));
    (95, ("Thunderstorm", "Thunderstorm"));
    (96, ("Thunderstorm", "Thunderstorm with slight hail"));
    (99, ("Severe Thunderstorm", "Thunderstorm with heavy hail")) ].

(** Whether the value [code] is the dict key [k]: an [int] key is found by
    any number equal to it ([True == 1], [3.0 == 3]). *)
Definition code_is (code : value) (k : Z) : bool :=
  match code with
  | VInt n => n =? k
  | VBool b => (if b then 1 else 0) =? k
  | VFloat f => PrimFloat.eqb f (PrimFloat.of_uint63 (Uint63.of_Z k))
  | _ => false
  end.

Fixpoint find_code (code : value) (t : list (Z * (string * string)))
    : option (string * string) :=
  match t with
  | [] => None
  | (k, d) :: t' => if code_is code k then Some d else find_code code t'
  end.

(** [weather_codes.get(code, ("Unknown", "Unknown conditions"))]; a list or
    a dict is not hashable and cannot be looked up. *)
Definition _get_weather_description (code : value) : res (string * string) :=
  match code with
  | VList _ | VDict _ =>
      raise TypeError ("unhashable type: '" +:+ type_name code +:+ "'")
  | _ => ok (default ("Unknown", "Unknown conditions")
                     (find_code code weather_codes))
  end.

Section Adapters.

Context {unicode : unicode_case}.
Variable http : oracle.

(** *** [get_weather] *)

Definition city_not_found (city : string) : value :=
  VDict [("error", VStr ("City '" +:+ city +:+ "' not found"))].

Definition first_result (geo_data : value) : res value :=
  res_bind (getitem_str geo_data "results") getitem_0.

Definition get_weather_body (city : string) : M value :=
  let geocode_url := "https://geocoding-api.open-meteo.com/v1/search" in
  let geocode_params :=
    [("name", VStr city); ("count", VInt 1); ("language", VStr "en")] in
  geo_response <- requests_get http geocode_url geocode_params 10 ;;
  _ <~ raise_for_status geo_response ;;
  geo_data <~ json geo_response ;;
  has_results <~ contains "results" geo_data ;;
  not_found <~ (if negb has_results then ok true
                else res_bind (res_bind (getitem_str geo_data "results") len)
                              (fun n => ok (n =? 0))) ;;
  if not_found : bool then ret (city_not_found city)
  else
    r <~ first_result geo_data ;;
    lat <~ getitem_str r "latitude" ;;
    r <~ first_result geo_data ;;
    lon <~ getitem_str r "longitude" ;;
    r <~ first_result geo_data ;;
    city_name <~ getitem_str r "name" ;;
    r <~ first_result geo_data ;;
    country <~ get r "country" (VStr "") ;;
    let weather_url := "https://api.open-meteo.com/v1/forecast" in
    let weather_params :=
      [("latitude", lat);
       ("longitude", lon);
       ("current",
        VStr "temperature_2m,weather_code,wind_speed_10m,relative_humidity_2m");
       ("timezone", VStr "auto")] in
    weather_response <- requests_get http weather_url weather_params 10 ;;
    _ <~ raise_for_status weather_response ;;
    weather_data <~ json weather_response ;;
    current <~ get weather_data "current" (VDict []) ;;
    temp <~ get current "temperature_2m" (VInt 0) ;;
    weather_code <~ get current "weather_code" (VInt 0) ;;
    wind <~ get current "wind_speed_10m" (VInt 0) ;;
    humidity <~ get current "relative_humidity_2m" (VInt 0) ;;
    cd <~ _get_weather_description weather_code ;;
    ret (VDict
      [("city", city_name);
       ("country", country);
       ("temperature", temp);
       ("temperature_unit", VStr "°C");
       ("condition", VStr cd.1);
       ("description", VStr cd.2);
       ("wind_speed", wind);
       ("wind_unit", VStr "km/h");
       ("humidity", humidity)]).

(** The [except Exception] branch: "Fallback to mock data if API fails". *)
Definition weather_fallback (city : string) (e : exn) : value :=
  VDict
    [("city", VStr city);
     ("temperature", VInt 20);
     ("condition", VStr "Unknown");
     ("description", VStr ("Could not fetch weather: " +:+ msg e))].

Definition get_weather (city : string) : M value :=
  try_except (get_weather_body city)
             (fun e => ret (weather_fallback city e)).

(** *** [get_public_holidays] *)

Definition format_holiday (holiday : value) : res value :=
  res_bind (get holiday "date" (VStr "")) (fun date =>
  res_bind (get holiday "name" (VStr "")) (fun name_dflt =>
  res_bind (get holiday "localName" name_dflt) (fun name =>
  res_bind (get holiday "name" (VStr "")) (fun name_english =>
  res_bind (get holiday "fixed" (VBool false)) (fun fixed =>
  res_bind (get holiday "types" (VList [])) (fun types =>
  res_bind (join ", " types) (fun type =>
  ok (VDict
    [("date", date);
     ("name", name);
     ("name_english", name_english);
     ("fixed", fixed);
     ("type", VStr type)])))))))).

Fixpoint format_holidays (l : list value) : res (list value) :=
  match l with
  | [] => ok []
  | h :: l' =>
      res_bind (format_holiday h) (fun x =>
      res_bind (format_holidays l') (fun r => ok (x :: r)))
  end.

Definition holidays_url (country_code : string) (year : Z) : string :=
  "https://date.nager.at/api/v3/publicholidays/" +:+ pretty year +:+ "/"
  +:+ upper country_code.

Definition get_public_holidays_body (country_code : string) (year : Z)
    : M value :=
  response <- requests_get http (holidays_url country_code year) [] 10 ;;
  _ <~ raise_for_status response ;;
  holidays <~ json response ;;
  items <~ iter holidays ;;
  result <~ format_holidays items ;;
  ret (VList result).

Definition country_code_not_found (country_code : string) : string :=
  "Country code '" +:+ country_code +:+
  "' not found. Use ISO 3166-1 alpha-2 codes like: MA (Morocco), FR (France), US (USA), DE (Germany), GB (UK), JP (Japan)".

Definition error_entry (m : string) : value :=
  VList [VDict [("error", VStr m)]].

(** The two [except] clauses, tried in order: [HTTPError], then
    [Exception]. *)
Definition holidays_handler (country_code : string) (e : exn) : value :=
  match cls e with
  | HTTPError status =>
      if status =? 404 then error_entry (country_code_not_found country_code)
      else error_entry ("HTTP error: " +:+ msg e)
  | _ => error_entry ("Unexpected error: " +:+ msg e)
  end.

Definition get_public_holidays (country_code : string) (year : Z) : M value :=
  try_except (get_public_holidays_body country_code year)
             (fun e => ret (holidays_handler country_code e)).

(** *** [_get_mock_scholarships]: "Fallback mock scholarship data" *)

Definition scholarship (name amount deadline requirements description : string)
    : value :=
  VDict
    [("name", VStr name);
     ("amount", VStr amount);
     ("deadline", VStr deadline);
     ("requirements", VStr requirements);
     ("description", VStr description)].

Definition france_scholarships : list value :=
  [ scholarship
      "Eiffel Excellence Scholarship"
      "€1,700/month + tuition"
      "January 10, 2025"
      "Under 25 for Master's, excellent academics"
      "French government scholarship for international students";
    scholarship
      "Émile Boutmy Scholarship (Sciences Po)"
      "€5,000-10,000/year"
      "February 23, 2025"
      "Non-EU, excellent academic record"
      "For undergraduate and master's students at Sciences Po Paris";
    scholarship
      "ENS Paris-Saclay International Scholarship"
      "€1,000/month"
      "December 1, 2024"
      "Master's level, research focus"
      "For international students in sciences";
    scholarship
      "HEC Paris MBA Scholarship"
      "Up to €30,000"
      "Rolling"
      "MBA admission, leadership experience"
      "Merit-based scholarship for MBA students";
    scholarship
      "INSEAD Scholarship"
      "€10,000-50,000"
      "Rolling"
      "MBA/Master's admission"
      "Various scholarships for INSEAD programs" ].

Definition qatar_scholarships : list value :=
  [ scholarship
      "Qatar Foundation Scholarship"
      "Full tuition + living expenses"
      "February 28, 2025"
      "Excellent academics, leadership"
      "For international students studying in Qatar";
    scholarship
      "Hamad Bin Khalifa University Scholarship"
      "Full funding + stipend"
      "March 1, 2025"
      "Admission to HBKU program"
      "For graduate studies at HBKU";
    scholarship
      "Qatar National Research Fund"
      "$50,000 grant"
      "April 30, 2025"
      "Research proposal, PhD level"
      "For doctoral research in Qatar";
    scholarship
      "Texas A&M Qatar Scholarship"
      "Full tuition"
      "January 15, 2025"
      "Engineering students"
      "For engineering programs at Texas A&M Qatar";
    scholarship
      "Carnegie Mellon Qatar Scholarship"
      "Partial to full tuition"
      "January 1, 2025"
      "CS/Business admission"
      "Merit-based for CMU Qatar students" ].

Definition morocco_scholarships : list value :=
  [ scholarship
      "Fulbright Morocco Scholarship"
      "Full funding"
      "February 1, 2025"
      "Moroccan citizen, leadership"
      "US government scholarship for graduate studies";
    scholarship
      "Chevening Scholarship"
      "Full tuition + £1,200/month"
      "November 7, 2025"
      "2+ years work experience"
      "UK government scholarship";
    scholarship
      "DAAD Germany Scholarship"
      "€934/month"
      "October 15, 2025"
      "Good academics, English/German"
      "German Academic Exchange Service";
    scholarship
      "Erasmus Mundus"
      "€25,000/year + tuition"
      "January 15, 2025"
      "Bachelor's degree"
      "EU-funded scholarship";
    scholarship
      "Turkish Government Scholarship"
      "Full tuition + stipend"
      "February 20, 2025"
      "Under 30 for Master's"
      "Türkiye Bursları scholarship" ].

Definition default_scholarships : list value :=
  [ scholarship
      "Erasmus Mundus Joint Masters"
      "€25,000/year + tuition"
      "January 15, 2025"
      "Bachelor's degree, English proficiency"
      "EU-funded scholarship for international students";
    scholarship
      "Chevening Scholarship UK"
      "Full tuition + £1,200/month"
      "November 7, 2025"
      "2+ years work experience, leadership"
      "UK government's global scholarship";
    scholarship
      "DAAD Scholarship Germany"
      "€934/month + insurance"
      "October 15, 2025"
      "Good academic record"
      "German Academic Exchange Service";
    scholarship
      "Fulbright Foreign Student Program"
      "Full funding"
      "February 1, 2025"
      "Bachelor's degree, leadership"
      "US government scholarship";
    scholarship
      "Swiss Government Excellence Scholarship"
      "CHF 1,920/month"
      "December 2024"
      "Research proposal"
      "For doctoral research in Switzerland" ].

(** Country-specific scholarships. *)
Definition scholarships : list (string * value) :=
  [("france", VList france_scholarships);
   ("qatar", VList qatar_scholarships);
   ("morocco", VList morocco_scholarships)].

Definition _get_mock_scholarships (country field level : string) : value :=
  let country_lower := lower country in
  default (VList default_scholarships) (dict_lookup country_lower scholarships).

(** *** [search_scholarships] *)

Definition is_nonempty_list (data : value) : bool :=
  match data with VList (_ :: _) => true | _ => false end.

Definition is_dict_with (k : string) (data : value) : bool :=
  match data with
  | VDict d => bool_decide (k ∈ dict_keys d)
  | _ => false
  end.

(** The [try] block: [Some v] when it executes [return v], [None] when
    control falls out of it. *)
Definition search_scholarships_live (country field level : string)
    : M (option value) :=
  let url := "https://scholarshipsapi.com/search" in
  let params :=
    [("country", VStr (lower country)); ("level", VStr (lower level))] in
  response <- requests_get http url params 10 ;;
  _ <~ raise_for_status response ;;
  data <~ json response ;;
  if is_nonempty_list data then ret (Some data)
  else if is_dict_with "scholarships" data then
    v <~ getitem_str data "scholarships" ;;
    ret (Some v)
  else ret None.

Definition search_scholarships (country field level : string) : M value :=
  returned <- try_except (search_scholarships_live country field level)
                         (fun _ => ret None) ;;
  match returned with
  | Some v => ret v
  | None => ret (_get_mock_scholarships country field level)
  end.

(** *** [search_city_info] *)

(** [os.getenv] *)
Variable getenv : string -> option string.

Definition format_source (source : value) : res value :=
  res_bind (get source "title" (VStr "")) (fun title =>
  res_bind (get source "url" (VStr "")) (fun u =>
  res_bind (get source "content" (VStr "")) (fun content =>
  res_bind (slice_to 200 content) (fun content =>
  ok (VDict [("title", title); ("url", u); ("content", content)]))))).

Fixpoint format_sources (l : list value) : res (list value) :=
  match l with
  | [] => ok []
  | x :: l' =>
      res_bind (format_source x) (fun y =>
      res_bind (format_sources l') (fun r => ok (y :: r)))
  end.

Definition search_city_info_body (api_key city : string) : M value :=
  let url := "https://api.tavily.com/search" in
  let payload :=
    VDict
      [("api_key", VStr api_key);
       ("query",
        VStr ("interesting facts about " +:+ city
              +:+ " city tourist information"));
       ("search_depth", VStr "basic");
       ("include_answer", VBool true);
       ("max_results", VInt 5)] in
  response <- requests_post http url payload 15 ;;
  _ <~ raise_for_status response ;;
  data <~ json response ;;
  summary <~ get data "answer" (VStr "No summary available") ;;
  results <~ get data "results" (VList []) ;;
  top <~ slice_to 3 results ;;
  items <~ iter top ;;
  sources <~ format_sources items ;;
  ret (VDict
    [("city", VStr city); ("summary", summary); ("sources", VList sources)]).

(** The two [except] clauses, tried in order: [RequestException], then
    [Exception]. *)
Definition city_info_handler (city : string) (e : exn) : value :=
  if is_RequestException e then
    VDict [("error", VStr ("Tavily API error: " +:+ msg e));
           ("city", VStr city)]
  else
    VDict [("error", VStr ("Unexpected error: " +:+ msg e));
           ("city", VStr city)].

Definition search_city_info (city : string) : M value :=
  let api_key := getenv "TAVILY_API_KEY" in
  match api_key with
  | None | Some EmptyString =>
      ret (VDict [("error", VStr "TAVILY_API_KEY not set in .env file")])
  | Some api_key =>
      try_except (search_city_info_body api_key city)
                 (fun e => ret (city_info_handler city e))
  end.

End Adapters.

End Tools.

(* ===================================================================== *)
(** ** [src/agents.py]: callbacks, agent declarations and dispatch *)
(* ===================================================================== *)

Module Agents.
Import Py.

(** [types.Part], [types.Content] *)
Record Part : Type := mkPart { text : string }.
Record Content : Type := mkContent { parts : list Part; role : string }.

(** [callback_context.state]: a dict from key to value. *)
Abbreviation State := (gmap string value).

Record CallbackContext : Type := mkCallbackContext {
  agent_name : string;
  state : State
}.

Record LlmRequest : Type := mkLlmRequest { contents : list Content }.
Record LlmResponse : Type := mkLlmResponse { content : Content }.

(** *** Callback 1: [check_and_log_agent_entry] (before agent)

    [current_state] is the snapshot [state.to_dict()] taken on entry; the two
    assignments go to the live state.  The result is the returned content
    together with the state the callback leaves behind. *)
Definition check_and_log_agent_entry (callback_context : CallbackContext)
    : res (option Content * State) :=
  let agent_name := agent_name callback_context in
  let current_state := state callback_context in
  res_bind
    (add_one (default (VInt 0) (current_state !! "user:agent_call_count")))
    (fun call_count =>
  let st := <["user:agent_call_count" := call_count]> (state callback_context) in
  let st := <["temp:current_agent" := VStr agent_name]> st in
  if truthy (default (VBool false) (current_state !! "skip_processing")) then
    ok (Some (mkContent [mkPart ("Agent " +:+ agent_name +:+ " skipped.")]
                        "model"),
        st)
  else ok (None, st)).

(** *** Callback 2: [simple_before_model_modifier] (before model) *)
Definition simple_before_model_modifier (callback_context : CallbackContext)
    (llm_request : LlmRequest) : option LlmResponse :=
  None.

(** *** Callback 3: [simple_after_tool_modifier] (after tool) *)
Definition simple_after_tool_modifier (tool : string) (args : value)
    (tool_response : value) : option value :=
  None.

(** *** The tool wrappers of this module *)

Definition get_weather_tool (city : string) : value :=
  VDict [("city", VStr city); ("temp", VStr "25C");
         ("condition", VStr "Sunny"); ("status", VStr "success")].

Definition get_public_holidays_tool (country_code : string) (year : Z)
    : value :=
  VDict [("country", VStr country_code);
         ("holidays", VList [VStr "New Year"; VStr "Independence Day"]);
         ("status", VStr "success")].

Definition search_scholarships_tool (country field level : string) : value :=
  VDict
    [("status", VStr "success");
     ("data",
      VList
        [VDict [("name", VStr "Gov Grant A"); ("amount", VStr "5000$");
                ("deadline", VStr "2025-12-01"); ("req", VStr "GPA 3.0")];
         VDict [("name", VStr "Tech Future B"); ("amount", VStr "2000$");
                ("deadline", VStr "2025-06-01"); ("req", VStr "GPA 3.5")];
         VDict [("name", VStr "Research Fell C"); ("amount", VStr "10000$");
                ("deadline", VStr "2025-09-01"); ("req", VStr "PhD Only")]])].

(** *** Agent declarations

    The fields the dispatch depends on.  The [instruction] of an agent is
    prompt text for the language model and is left out. *)

Inductive agent_kind : Type :=
  | LlmAgent (model : string)
  | SequentialAgent.

Inductive Agent : Type := mkAgent {
  name : string;
  kind : agent_kind;
  tools : list string;
  sub_agents : list Agent;
  before_agent_callback :
    option (CallbackContext -> res (option Content * State));
  before_model_callback :
    option (CallbackContext -> LlmRequest -> option LlmResponse);
  after_tool_callback : option (string -> value -> value -> option value)
}.

Definition ROOT_MODEL_NAME : string := "ollama_chat/qwen2.5:7b-instruct".
Definition TOOL_MODEL_NAME : string := "ollama_chat/qwen2.5:7b-instruct".

Definition weather_agent : Agent :=
  mkAgent "weather_agent" (LlmAgent TOOL_MODEL_NAME) ["get_weather_tool"] []
          None (Some simple_before_model_modifier) None.

Definition holiday_agent : Agent :=
  mkAgent "holiday_agent" (LlmAgent TOOL_MODEL_NAME)
          ["get_public_holidays_tool"] [] None None None.

Definition city_info_agent : Agent :=
  mkAgent "city_info_agent" (LlmAgent ROOT_MODEL_NAME) [] [] None None None.

Definition scholarship_search_agent : Agent :=
  mkAgent "scholarship_search_agent" (LlmAgent TOOL_MODEL_NAME)
          ["search_scholarships_tool"] [] None None
          (Some simple_after_tool_modifier).

Definition scholarship_ranking_agent : Agent :=
  mkAgent "scholarship_ranking_agent" (LlmAgent TOOL_MODEL_NAME) [] []
          None None None.

Definition scholarship_summary_agent : Agent :=
  mkAgent "scholarship_summary_agent" (LlmAgent ROOT_MODEL_NAME) [] []
          None None None.

Definition scholarship_pipeline : Agent :=
  mkAgent "scholarship_pipeline" SequentialAgent []
          [scholarship_search_agent; scholarship_ranking_agent;
           scholarship_summary_agent]
          None None None.

Definition root_agent : Agent :=
  mkAgent "root_agent" (LlmAgent ROOT_MODEL_NAME) []
          [weather_agent; holiday_agent; city_info_agent; scholarship_pipeline]
          (Some check_and_log_agent_entry) None None.

(** *** Dispatch

    What happens inside an agent once it runs (generation calls, tool calls,
    transfers to sub-agents) is decided by the language model and the agent
    framework; it is the opaque [run_body], which reports the events of the
    run and the final content.  Nothing in the source but the entry hook
    writes to the state: no agent declares an output key, and no tool or other
    callback assigns to it. *)

Inductive event : Type :=
  | HandlerRun (agent : string)
  | GenerationCall (agent : string)
  | ToolCall (tool : string).

Section Dispatch.

Variable run_body : Agent -> State -> string -> list event * Content.

(** The framework's contract for [before_agent_callback]: it is called
    before the agent runs; content returned by it becomes the agent's answer
    and the agent does not run; an exception raised by it ends the turn. *)
Definition run_agent (a : Agent) (st : State) (user_text : string)
    : res (Content * State * list event) :=
  match before_agent_callback a with
  | None => let (ev, c) := run_body a st user_text in ok (c, st, ev)
  | Some hook =>
      res_bind (hook (mkCallbackContext (name a) st)) (fun r =>
      match r with
      | (Some c, st') => ok (c, st', [])
      | (None, st') =>
          let (ev, c) := run_body a st' user_text in ok (c, st', ev)
      end)
  end.

(** One turn: the request goes to [root_agent]. *)
Definition turn (st : State) (user_text : string)
    : res (Content * State * list event) :=
  run_agent root_agent st user_text.

(** The turns of one session, in order; the state is carried along. *)
Fixpoint run_session (st : State) (requests : list string)
    : res (State * list Content) :=
  match requests with
  | [] => ok (st, [])
  | user_text :: rest =>
      res_bind (turn st user_text) (fun r =>
      let '(c, st', _) := r in
      res_bind (run_session st' rest) (fun r' =>
      let (st'', cs) := r' in ok (st'', c :: cs)))
  end.

End Dispatch.

End Agents.

(* ===================================================================== *)
(** ** Vocabulary of the adapter properties *)
(* ===================================================================== *)

Module ToolSpec.
Import Py Http Tools.

Definition keys_of (v : value) : option (list string) :=
  match v with VDict d => Some (dict_keys d) | _ => None end.

Definition has_fields (ks : list string) (v : value) : bool :=
  forallb (fun k => is_dict_with k v) ks.

(** A failure value: a dict with an [error] field, or (the holiday tool) a
    list whose single entry is such a dict. *)
Definition tagged_failure (v : value) : bool :=
  match v with
  | VList [x] => is_dict_with "error" x
  | _ => is_dict_with "error" v
  end.

(** The first request each adapter sends. *)
Definition geocode_request (city : string) : request :=
  Request GET "https://geocoding-api.open-meteo.com/v1/search"
    [("name", VStr city); ("count", VInt 1); ("language", VStr "en")] None 10.

Definition holidays_request {unicode : unicode_case} (country_code : string)
    (year : Z) : request :=
  Request GET (holidays_url country_code year) [] None 10.

Definition scholarships_request {unicode : unicode_case}
    (country level : string) : request :=
  Request GET "https://scholarshipsapi.com/search"
    [("country", VStr (lower country)); ("level", VStr (lower level))] None 10.

(** A network on which every request fails. *)
Definition unreachable : oracle :=
  fun _ _ => raise RequestException "connection refused".

(** A source that answers every request with status 200 and the body
    [data]. *)
Definition answers (data : value) : oracle :=
  fun _ rq => ok (Response 200 "OK" (url rq) (ok data)).

(** A holiday source that knows no country. *)
Definition unknown_country : oracle :=
  fun _ rq => ok (Response 404 "Not Found" (url rq) (raise ValueError "")).

Definition weather_success_keys : list string :=
  ["city"; "country"; "temperature"; "temperature_unit"; "condition";
   "description"; "wind_speed"; "wind_unit"; "humidity"].

Definition scholarship_keys : list string :=
  ["name"; "amount"; "deadline"; "requirements"; "description"].

(** The live source gives nothing the [try] block of [search_scholarships]
    returns: the request, the status check or the decoding raises, or the body
    is neither a non-empty list nor a dict with a [scholarships] member. *)
Inductive live_unavailable {unicode : unicode_case} (http : oracle)
    (log : list request) (c l : string) : Prop :=
  | request_raises e :
      http log (scholarships_request c l) = inl e -> live_unavailable http log c l
  | status_raises r e :
      http log (scholarships_request c l) = inr r ->
      raise_for_status r = inl e -> live_unavailable http log c l
  | json_raises r e :
      http log (scholarships_request c l) = inr r ->
      raise_for_status r = inr tt ->
      json r = inl e -> live_unavailable http log c l
  | nothing_to_return r data :
      http log (scholarships_request c l) = inr r ->
      raise_for_status r = inr tt ->
      json r = inr data ->
      is_nonempty_list data = false ->
      is_dict_with "scholarships" data = false ->
      live_unavailable http log c l.



(** C6, as the specification words it: the output has the fields of the
    success payload, or it has an [error] field. *)
Definition claimed_weather_fields : list string :=
  ["city"; "country"; "temperature"; "condition"; "description";
   "wind_speed"; "humidity"].

Definition weather_output_two_shapes : Prop :=
  forall (http : oracle) (city : string) (log : list request),
    exists v log',
      get_weather http city log = (inr v, log')
      /\ (has_fields claimed_weather_fields v = true
          \/ is_dict_with "error" v = true).

(** *** Further vocabulary *)

(** The field [k] of a dict value. *)
Definition field (k : string) (v : value) : option value :=
  match v with VDict d => dict_lookup k d | _ => None end.

(** The second request of [get_weather]. *)
Definition forecast_request (lat lon : value) : request :=
  Request GET "https://api.open-meteo.com/v1/forecast"
    [("latitude", lat);
     ("longitude", lon);
     ("current",
      VStr "temperature_2m,weather_code,wind_speed_10m,relative_humidity_2m");
     ("timezone", VStr "auto")] None 10.

(** The request of [search_city_info]. *)
Definition tavily_request (api_key city : string) : request :=
  Request POST "https://api.tavily.com/search" []
    (Some (VDict
      [("api_key", VStr api_key);
       ("query",
        VStr ("interesting facts about " +:+ city
              +:+ " city tourist information"));
       ("search_depth", VStr "basic");
       ("include_answer", VBool true);
       ("max_results", VInt 5)])) 15.




(** [logs P m]: running [m] appends to the request log a list of requests
    that satisfies [P]. *)
Definition logs {A} (P : list request -> Prop) (m : M A) : Prop :=
  forall log, exists extra, (m log).2 = log ++ extra /\ P extra.

(** A network that answers the [n]-th request of a run with status 200 and
    the [n]-th body of [bodies]; a request beyond them fails. *)
Definition scripted (bodies : list value) : oracle :=
  fun log rq =>
    match bodies !! length log with
    | Some data => ok (Response 200 "OK" (url rq) (ok data))
    | None => raise RequestException "connection refused"
    end.

(** A network that answers every request with the status [status]. *)
Definition refuses (status : Z) (reason : string) : oracle :=
  fun _ rq => ok (Response status reason (url rq) (raise ValueError "")).

Definition paris_geocoding : value :=
  VDict [("results",
          VList [VDict [("name", VStr "Paris"); ("latitude", VInt 48);
                        ("longitude", VInt 2); ("country", VStr "France")]])].

Definition paris_forecast : value :=
  VDict [("current",
          VDict [("temperature_2m", VInt 18); ("weather_code", VInt 61);
                 ("wind_speed_10m", VInt 12);
                 ("relative_humidity_2m", VInt 70)])].

Definition new_year : value :=
  VDict [("date", VStr "2025-01-01"); ("name", VStr "New Year's Day");
         ("fixed", VBool true); ("types", VList [VStr "Public"])].

(** [x] is the entry [get_public_holidays] builds from the holiday [h]: [h]
    is a dict, its [types] (default: none) join to a string, and a missing
    field takes its default; the local name falls back to the English name. *)
Definition formatted_holiday (h x : value) : Prop :=
  exists d ty,
    h = VDict d
    /\ join ", " (default (VList []) (dict_lookup "types" d)) = inr ty
    /\ x = VDict
         [("date", default (VStr "") (dict_lookup "date" d));
          ("name",
           default (default (VStr "") (dict_lookup "name" d))
                   (dict_lookup "localName" d));
          ("name_english", default (VStr "") (dict_lookup "name" d));
          ("fixed", default (VBool false) (dict_lookup "fixed" d));
          ("type", VStr ty)].

(** A holiday the adapter can format: a dict whose [types] (default: none)
    is a sequence of strings. *)
Definition well_formed_holiday (h : value) : Prop :=
  exists d ty,
    h = VDict d
    /\ join ", " (default (VList []) (dict_lookup "types" d)) = inr ty.

(** *** Vocabulary of the failure behaviour *)

(** A case mapping for examples: their arguments are ASCII and never reach
    it. *)
Definition sample_case : unicode_case := UnicodeCase id id.

(** The exchange that starts with the request [rq] fails with [e]: the
    request raises, the answer has an error status, or its body cannot be
    decoded. *)
Inductive exchange_failed (http : oracle) (log : list request) (rq : request)
    (e : exn) : Prop :=
  | request_failed :
      http log rq = inl e -> exchange_failed http log rq e
  | status_failed r :
      http log rq = inr r ->
      raise_for_status r = inl e -> exchange_failed http log rq e
  | decoding_failed r :
      http log rq = inr r ->
      raise_for_status r = inr tt ->
      json r = inl e -> exchange_failed http log rq e.

(** The result of [get_weather] for a city the geocoder does not know. *)
Definition weather_not_found_payload (city : string) : value :=
  VDict [("error", VStr ("City '" +:+ city +:+ "' not found"))].

(** The result of [get_weather] when an exception with the text [reason] was
    caught. *)
Definition weather_fallback_payload (city reason : string) : value :=
  VDict
    [("city", VStr city);
     ("temperature", VInt 20);
     ("condition", VStr "Unknown");
     ("description", VStr ("Could not fetch weather: " +:+ reason))].

(** The geocoder's body holds no result: ["results" not in data], or
    [len(data["results"]) == 0]. *)
Definition no_results (data : value) : Prop :=
  contains "results" data = inr false
  \/ exists v, getitem_str data "results" = inr v /\ len v = inr 0.

(** The geocoding exchange succeeds and its body holds no result. *)
Definition geocoding_found_nothing (http : oracle) (log : list request)
    (city : string) : Prop :=
  exists r data,
    http log (geocode_request city) = inr r
    /\ raise_for_status r = inr tt
    /\ json r = inr data
    /\ no_results data.

(** The corrective message of the holiday tool for an unknown country
    code. *)
Definition not_found_text (country_code : string) : string :=
  "Country code '" +:+ country_code +:+
  "' not found. Use ISO 3166-1 alpha-2 codes like: MA (Morocco), FR (France), US (USA), DE (Germany), GB (UK), JP (Japan)".

(** A list with the single entry [{error: m}]. *)
Definition error_list (m : string) : value :=
  VList [VDict [("error", VStr m)]].


End ToolSpec.

(* ===================================================================== *)
(** ** Vocabulary of the dispatch properties *)
(* ===================================================================== *)

Module AgentSpec.
Import Py Agents.

(** The counter as the hook reads it: [state.get(key, 0)]. *)
Definition read_counter (key : string) (st : State) : value :=
  default (VInt 0) (st !! key).

(** The counter, when present, is a number: the hook can add one to it. *)
Definition is_number (v : value) : bool :=
  match v with VInt _ | VBool _ | VFloat _ => true | _ => false end.

Definition counter_well_typed (st : State) : bool :=
  is_number (read_counter "user:agent_call_count" st).

Definition skipped (agent_name : string) : Content :=
  mkContent [mkPart ("Agent " +:+ agent_name +:+ " skipped.")] "model".

Definition skip_requested (st : State) : bool :=
  truthy (default (VBool false) (st !! "skip_processing")).

(** An agent body that runs, calls the generation backend and each of the
    agent's tools, and answers with the request text. *)
Definition echo_body (a : Agent) (st : State) (user_text : string)
    : list event * Content :=
  (HandlerRun (name a) :: GenerationCall (name a) :: (ToolCall <$> tools a),
   mkContent [mkPart user_text] "model").

(** C2, as the specification words it, for the key [key]: a session that
    starts without the counter has it equal to the number of turns after any
    number of turns. *)
Definition counter_equals_turns (key : string) : Prop :=
  forall (run_body : Agent -> State -> string -> list event * Content)
         (st : State) (requests : list string),
    st !! key = None ->
    exists st' cs,
      run_session run_body st requests = inr (st', cs)
      /\ read_counter key st' = VInt (Z.of_nat (length requests)).


(** C3, as the specification words it: whenever [skip_processing] is true
    before the dispatch, the turn is answered with the skipped marker and
    nothing runs. *)
Definition skip_always_short_circuits : Prop :=
  forall (run_body : Agent -> State -> string -> list event * Content)
         (st : State) (user_text : string),
    st !! "skip_processing" = Some (VBool true) ->
    exists st',
      check_and_log_agent_entry (mkCallbackContext "root_agent" st)
      = inr (Some (mkContent [mkPart "Agent root_agent skipped."] "model"),
             st')
      /\ turn run_body st user_text
         = inr (mkContent [mkPart "Agent root_agent skipped."] "model",
                st', []).

End AgentSpec.

(* ===================================================================== *)
(** ** Reasoning about computations that may raise *)
(* ===================================================================== *)

Module HttpFacts.
Import Py Http.
Local Open Scope http_scope.

Lemma returns_ret {A} (Q : A -> Prop) (a : A) : Q a -> returns Q (ret a).
Proof. intros H log. exact H. Qed.

Lemma returns_bind {A B} (Q : B -> Prop) (m : M A) (f : A -> M B) :
  (forall a, returns Q (f a)) -> returns Q (bind m f).
Proof.
  intros H log. unfold bind.
  destruct (m log) as [[e|a] log']; [exact I | apply H].
Qed.

Lemma returns_if {A} (Q : A -> Prop) (b : bool) (m1 m2 : M A) :
  returns Q m1 -> returns Q m2 -> returns Q (if b then m1 else m2).
Proof. by destruct b. Qed.


(** A request that fails raises out of any body that starts with it. *)
Lemma send_fails_bind {A} (http : oracle) rq e (f : response -> M A) log :
  http log rq = inl e ->
  bind (send http rq) f log = (inl e, log ++ [rq]).
Proof. intros H. unfold bind, send. by rewrite H. Qed.

Lemma send_ok_bind {A} (http : oracle) rq r (f : response -> M A) log :
  http log rq = inr r ->
  bind (send http rq) f log = f r (log ++ [rq]).
Proof. intros H. unfold bind, send. by rewrite H. Qed.

(** *** Stepping through a body *)

Lemma bind_lift_ok {A B} (a : A) (f : A -> M B) log :
  bind (lift (inr a)) f log = f a log.
Proof. reflexivity. Qed.

Lemma bind_lift_raise {A B} (e : exn) (f : A -> M B) log :
  bind (lift (inl e)) f log = (inl e, log).
Proof. reflexivity. Qed.

Ltac run_step :=
  repeat first
    [ progress unfold ok
    | progress cbn [res_bind len get getitem_0 negb]
    | rewrite bind_lift_ok ].

(** An exchange that fails raises out of any body that starts with the
    request, the status check and the decoding. *)
Lemma exchange_failed_run {A} (http : oracle) log rq e
    (k : response -> value -> M A) :
  ToolSpec.exchange_failed http log rq e ->
  bind (send http rq)
       (fun r => bind (lift (raise_for_status r))
                      (fun _ => bind (lift (json r)) (k r))) log
  = (inl e, log ++ [rq]).
Proof.
  intros [H | r H Hs | r H Hs Hj].
  - by rewrite (send_fails_bind _ _ e).
  - rewrite (send_ok_bind _ _ r) by exact H. by rewrite Hs.
  - rewrite (send_ok_bind _ _ r) by exact H.
    by rewrite Hs, bind_lift_ok, Hj.
Qed.

(** *** Outcomes on a given log *)

Lemma outcome_ret {A} (Q : A -> Prop) (a : A) log : Q a -> outcome Q (ret a) log.
Proof. intros H. exact H. Qed.

Lemma outcome_lift_bind {A B} (Q : B -> Prop) (r : res A) (f : A -> M B) log :
  (forall a, r = inr a -> outcome Q (f a) log) ->
  outcome Q (bind (lift r) f) log.
Proof. intros H. destruct r as [e|a]; [exact I | by apply H]. Qed.

Lemma outcome_send_bind {A} (Q : A -> Prop) (http : oracle) rq
    (f : response -> M A) log :
  (forall r, http log rq = inr r -> outcome Q (f r) (log ++ [rq])) ->
  outcome Q (bind (send http rq) f) log.
Proof.
  intros H. unfold outcome, bind, send.
  destruct (http log rq) as [e|r]; [exact I | by apply H].
Qed.

Lemma outcome_of_returns {A} (Q : A -> Prop) (m : M A) log :
  returns Q m -> outcome Q m log.
Proof. intros H. apply H. Qed.

End HttpFacts.

(* ===================================================================== *)
(** ** Properties of the tool adapters *)
(* ===================================================================== *)

Module ToolProps.
Import Py Http Tools ToolSpec HttpFacts.
Local Open Scope http_scope.

(** *** Substrings *)

Lemma prefix_is_substring (n s : string) :
  String.prefix n s = true -> is_substring n s = true.
Proof. intros H. destruct s; cbn [is_substring]; by rewrite H. Qed.

Lemma is_substring_app_r (n p s : string) :
  is_substring n s = true -> is_substring n (p +:+ s) = true.
Proof.
  intros H. induction p as [|c p IH]; [exact H|].
  change (is_substring n (String c p +:+ s))
    with (String.prefix n (String c (p +:+ s)) || is_substring n (p +:+ s)).
  rewrite IH. apply orb_true_r.
Qed.

(** *** [get_weather] *)

Lemma get_weather_body_returns (http : oracle) (city : string) :
  returns (fun v => keys_of v = Some weather_success_keys
                    \/ v = city_not_found city)
          (get_weather_body http city).
Proof.
  unfold get_weather_body.
  do 5 (apply returns_bind; intros ?).
  apply returns_if.
  - apply returns_ret. by right.
  - do 17 (apply returns_bind; intros ?).
    apply returns_ret. by left.
Qed.

Lemma get_weather_request_fails (http : oracle) city log e :
  http log (geocode_request city) = inl e ->
  get_weather http city log
  = (inr (weather_fallback city e), log ++ [geocode_request city]).
Proof.
  intros H. unfold get_weather, try_except, get_weather_body, requests_get.
  by rewrite (send_fails_bind _ _ e).
Qed.

(** *** [get_public_holidays] *)


Lemma get_public_holidays_request_fails {unicode : unicode_case} (http : oracle) cc year log e :
  http log (holidays_request cc year) = inl e ->
  get_public_holidays http cc year log
  = (inr (holidays_handler cc e), log ++ [holidays_request cc year]).
Proof.
  intros H.
  unfold get_public_holidays, try_except, get_public_holidays_body,
    requests_get.
  by rewrite (send_fails_bind _ _ e).
Qed.

Lemma holidays_handler_tagged cc e : tagged_failure (holidays_handler cc e) = true.
Proof.
  unfold holidays_handler.
  destruct (cls e); try reflexivity. by destruct (_ =? _).
Qed.

(** *** [search_scholarships] *)


Lemma search_scholarships_request_fails {unicode : unicode_case} (http : oracle) c f l log e :
  http log (scholarships_request c l) = inl e ->
  search_scholarships http c f l log
  = (inr (_get_mock_scholarships c f l), log ++ [scholarships_request c l]).
Proof.
  intros H.
  unfold search_scholarships, bind at 1, try_except,
    search_scholarships_live, requests_get.
  by rewrite (send_fails_bind _ _ e).
Qed.

(** Every call sends exactly one request. *)
Lemma search_scholarships_one_request {unicode : unicode_case} (http : oracle) c f l log :
  (search_scholarships http c f l log).2 = log ++ [scholarships_request c l].
Proof.
  unfold search_scholarships, bind at 1, try_except, search_scholarships_live,
    requests_get.
  destruct (http log (scholarships_request c l)) as [e|r] eqn:Hreq.
  - by rewrite (send_fails_bind _ _ e).
  - rewrite (send_ok_bind _ _ r) by exact Hreq.
    unfold bind, lift.
    destruct (raise_for_status r) as [e|[]]; [reflexivity|].
    destruct (json r) as [e|data]; [reflexivity|].
    destruct (is_nonempty_list data); [reflexivity|].
    destruct (is_dict_with "scholarships" data); [|reflexivity].
    by destruct (getitem_str data "scholarships").
Qed.

(** The built-in dataset: which list each country selects, and the shape
    of every list. *)
Lemma mock_scholarships_selection {unicode : unicode_case} (c f l : string) :
  _get_mock_scholarships c f l
  = if String.eqb (lower c) "france" then VList france_scholarships
    else if String.eqb (lower c) "qatar" then VList qatar_scholarships
    else if String.eqb (lower c) "morocco" then VList morocco_scholarships
    else VList default_scholarships.
Proof.
  unfold _get_mock_scholarships, scholarships. cbn [dict_lookup].
  by repeat destruct (String.eqb _ _).
Qed.

Lemma mock_scholarships_shape {unicode : unicode_case} (c f l : string) :
  exists items,
    _get_mock_scholarships c f l = VList items
    /\ items <> []
    /\ Forall (fun x => keys_of x = Some scholarship_keys) items.
Proof.
  rewrite mock_scholarships_selection.
  repeat destruct (String.eqb _ _);
    (eexists; split; [reflexivity|]; split; [discriminate|]);
    repeat constructor.
Qed.

(** When the live source is unavailable the result is the built-in dataset. *)
Lemma search_scholarships_fallback {unicode : unicode_case} (http : oracle) c f l log :
  live_unavailable http log c l ->
  search_scholarships http c f l log
  = (inr (_get_mock_scholarships c f l), log ++ [scholarships_request c l]).
Proof.
  intros [e H | r e H Hs | r e H Hs Hj | r data H Hs Hj Hl Hd].
  - by apply (search_scholarships_request_fails _ _ _ _ _ e).
  - unfold search_scholarships, bind at 1, try_except,
      search_scholarships_live, requests_get.
    rewrite (send_ok_bind _ _ r) by done.
    unfold bind at 1, lift. by rewrite Hs.
  - unfold search_scholarships, bind at 1, try_except,
      search_scholarships_live, requests_get.
    rewrite (send_ok_bind _ _ r) by done.
    unfold bind at 1, lift. rewrite Hs.
    unfold bind at 1. by rewrite Hj.
  - unfold search_scholarships, bind at 1, try_except,
      search_scholarships_live, requests_get.
    rewrite (send_ok_bind _ _ r) by done.
    unfold bind at 1, lift. rewrite Hs.
    unfold bind at 1. rewrite Hj, Hl, Hd. reflexivity.
Qed.

(** *** Failed exchanges *)

Lemma get_weather_exchange_fails (http : oracle) city log e :
  exchange_failed http log (geocode_request city) e ->
  get_weather http city log
  = (inr (weather_fallback_payload city (msg e)),
     log ++ [geocode_request city]).
Proof.
  intros H. unfold get_weather, try_except, get_weather_body, requests_get.
  by rewrite (exchange_failed_run _ _ _ e) by exact H.
Qed.




(** *** The outcomes of [get_weather] *)

Lemma get_weather_body_outcome (http : oracle) city log :
  outcome (fun v => keys_of v = Some weather_success_keys
                    \/ v = weather_not_found_payload city
                       /\ geocoding_found_nothing http log city)
          (get_weather_body http city) log.
Proof.
  unfold get_weather_body, requests_get.
  apply outcome_send_bind. intros r Hr.
  apply outcome_lift_bind. intros [] Hs.
  apply outcome_lift_bind. intros data Hj.
  apply outcome_lift_bind. intros has_results Hc.
  apply outcome_lift_bind. intros not_found Hnf.
  destruct not_found.
  - apply outcome_ret. right. split; [reflexivity|].
    exists r, data. repeat split; try done.
    destruct has_results; [right | by left].
    cbn [negb] in Hnf.
    destruct (getitem_str data "results") as [e|v]; [discriminate|].
    cbn [res_bind] in Hnf.
    destruct (len v) as [e|n] eqn:Hlen; [discriminate|].
    cbn [res_bind] in Hnf. injection Hnf as Hn. apply Z.eqb_eq in Hn.
    exists v. by rewrite Hlen, Hn.
  - apply outcome_of_returns.
    do 17 (apply returns_bind; intros ?).
    apply returns_ret. by left.
Qed.

Lemma get_weather_found_nothing (http : oracle) city log :
  geocoding_found_nothing http log city ->
  get_weather http city log
  = (inr (weather_not_found_payload city), log ++ [geocode_request city]).
Proof.
  intros (r & data & Hr & Hs & Hj & Hno).
  unfold get_weather, try_except, get_weather_body, requests_get.
  rewrite (send_ok_bind _ _ r) by exact Hr.
  rewrite Hs, bind_lift_ok, Hj, bind_lift_ok.
  destruct Hno as [Hc | (v & Hv & Hlen)].
  - by rewrite Hc.
  - assert (Hc : contains "results" data = inr true).
    { destruct data as [| | | | | |d]; try discriminate.
      cbn [getitem_str] in Hv. cbn [contains]. unfold ok. f_equal.
      apply bool_decide_eq_true.
      destruct (dict_lookup "results" d) as [x|] eqn:Hd; [|discriminate].
      clear -Hd. induction d as [|[k' v'] d IH]; [discriminate|].
      cbn [dict_lookup] in Hd. unfold dict_keys. cbn [fmap list_fmap fst].
      destruct (String.eqb_spec "results" k') as [<-|Hne].
      - apply list_elem_of_here.
      - apply list_elem_of_further. by apply IH. }
    rewrite Hc, bind_lift_ok. cbn [negb].
    rewrite Hv. cbn [res_bind]. by rewrite Hlen.
Qed.

(** *** The claims *)




(** C6 (counterexample): when the geocoding request fails, the output of
    [get_weather "Paris"] is [{city, temperature, condition, description}]:
    neither the success payload (no [country], [wind_speed], [humidity]) nor
    a result with an [error] field. *)
Lemma weather_third_shape_counterexample : ~ weather_output_two_shapes.
Proof.
  intros H. destruct (H unreachable "Paris" []) as (v & log' & Hrun & Hshape).
  rewrite (get_weather_request_fails unreachable "Paris" []
             (Exn RequestException "connection refused")) in Hrun
    by reflexivity.
  injection Hrun as <- _.
  destruct Hshape as [Hs | Hs]; vm_compute in Hs; discriminate.
Qed.

(** C6 (amended): for every city, network and log, [get_weather] returns
    one of three shapes: the success payload with exactly the keys city,
    country, temperature, temperature_unit, condition, description,
    wind_speed, wind_unit, humidity; the result [{error: "City '...' not
    found"}]; or the fallback payload [{city, temperature: 20, condition:
    "Unknown", description: "Could not fetch weather: ..."}], which has no
    [error] field.  The [{error}] result is returned exactly when the
    geocoding exchange succeeds and its body holds no result.  The fallback
    payload is returned exactly when a step of the body raises, with the text
    of the exception in its description; that is the case whenever the
    geocoding request raises, answers with a 4xx or 5xx status or has a body
    that cannot be decoded. *)
Theorem get_weather_three_shapes (http : oracle) (city : string)
    (log : list request) :
  exists v log',
    get_weather http city log = (inr v, log')
    /\ (keys_of v = Some weather_success_keys
        \/ v = weather_not_found_payload city
        \/ exists reason, v = weather_fallback_payload city reason)
    /\ (v = weather_not_found_payload city
        <-> geocoding_found_nothing http log city)
    /\ (forall e, exchange_failed http log (geocode_request city) e ->
                  v = weather_fallback_payload city (msg e))
    /\ (forall e log1, get_weather_body http city log = (inl e, log1) ->
                       v = weather_fallback_payload city (msg e))
    /\ ((exists reason, v = weather_fallback_payload city reason) ->
        exists e log1, get_weather_body http city log = (inl e, log1)).
Proof.
  pose proof (get_weather_body_outcome http city log) as Hout.
  unfold outcome in Hout.
  assert (Hget : get_weather http city log
                 = match get_weather_body http city log with
                   | (inl e, log1) =>
                       (inr (weather_fallback_payload city (msg e)), log1)
                   | (inr a, log1) => (inr a, log1)
                   end).
  { unfold get_weather, try_except.
    by destruct (get_weather_body http city log) as [[e|a] log1]. }
  destruct (get_weather_body http city log) as [[e|a] log1] eqn:Hbody;
    cbn [fst] in Hout.
  - exists (weather_fallback_payload city (msg e)), log1.
    split; [exact Hget|]. split; [right; right; by eexists|].
    split; [split; [discriminate|] |].
    { intros Hno. rewrite (get_weather_found_nothing _ _ _ Hno) in Hget.
      discriminate Hget. }
    split.
    { intros e' He'. rewrite (get_weather_exchange_fails _ _ _ e' He') in Hget.
      congruence. }
    split; [intros e' log2 Heq; congruence | intros _; by eexists _, _].
  - exists a, log1. split; [exact Hget|].
    split; [destruct Hout as [Hk | [-> _]]; [by left | right; by left] |].
    split; [split |].
    { intros ->. by destruct Hout as [Hk | [_ Hno]]. }
    { intros Hno. rewrite (get_weather_found_nothing _ _ _ Hno) in Hget.
      congruence. }
    split.
    { intros e' He'. rewrite (get_weather_exchange_fails _ _ _ e' He') in Hget.
      congruence. }
    split; [discriminate|].
    intros (reason & ->). by destruct Hout as [Hk | [Hv _]].
Qed.

Lemma get_weather_three_shapes_witness :
  get_weather (refuses 500 "Internal Server Error") "Paris" []
  = (inr (VDict
       [("city", VStr "Paris");
        ("temperature", VInt 20);
        ("condition", VStr "Unknown");
        ("description",
         VStr "Could not fetch weather: 500 Server Error: Internal Server Error for url: https://geocoding-api.open-meteo.com/v1/search")]),
     [geocode_request "Paris"])
  /\ get_weather (answers (VDict [])) "Atlantis" []
     = (inr (VDict [("error", VStr "City 'Atlantis' not found")]),
        [geocode_request "Atlantis"]).
Proof.
  split.
  - destruct (get_weather_three_shapes
                (refuses 500 "Internal Server Error") "Paris" [])
      as (v & log' & Hrun & _ & _ & Hfail & _).
    pose proof Hrun as Hlog. vm_compute in Hlog. injection Hlog as _ Hlog.
    rewrite Hrun, <- Hlog.
    rewrite (Hfail (Exn (HTTPError 500)
                        "500 Server Error: Internal Server Error for url: https://geocoding-api.open-meteo.com/v1/search")).
    + reflexivity.
    + apply (status_failed _ _ _ _
               (Response 500 "Internal Server Error"
                         (url (geocode_request "Paris"))
                         (raise ValueError ""))); reflexivity.
  - destruct (get_weather_three_shapes (answers (VDict [])) "Atlantis" [])
      as (v & log' & Hrun & _ & [_ Hnone] & _).
    pose proof Hrun as Hlog. vm_compute in Hlog. injection Hlog as _ Hlog.
    rewrite Hrun, <- Hlog. rewrite Hnone.
    + reflexivity.
    + exists (Response 200 "OK" (url (geocode_request "Atlantis"))
                       (ok (VDict []))), (VDict []).
      repeat split. by left.
Defined.

(** C7 (the code at the failing input): the live source answers 200 with
    the body [{"scholarships": []}] or [{"scholarships": null}], which holds
    no usable list; the adapter returns that empty list, or [None], and not
    the built-in dataset for France, while the same empty list at the top
    level of the body does select the dataset. *)
Theorem search_scholarships_returns_empty_live_list
    {unicode : unicode_case} :
  search_scholarships (answers (VDict [("scholarships", VList [])]))
                      "France" "Computer Science" "master" []
  = (inr (VList []), [scholarships_request "France" "master"])
  /\ search_scholarships (answers (VDict [("scholarships", VNone)]))
                         "France" "Computer Science" "master" []
     = (inr VNone, [scholarships_request "France" "master"])
  /\ search_scholarships (answers (VList []))
                         "France" "Computer Science" "master" []
     = (inr (VList france_scholarships),
        [scholarships_request "France" "master"])
  /\ _get_mock_scholarships "France" "Computer Science" "master"
     = VList france_scholarships.
Proof. repeat split; vm_compute; reflexivity. Qed.

(** C8: when the holiday source answers the lookup with status 404, the
    adapter returns the single entry [{error: m}] where [m] is the corrective
    message "Country code '...' not found. Use ISO 3166-1 alpha-2 codes like:
    ...": it quotes the code as given, names the example codes MA, FR, US, DE,
    GB and JP, and is not the "HTTP error: ..." rendering of the raised
    exception. *)
Theorem holiday_not_found_is_corrective {unicode : unicode_case}
    (http : oracle) (cc : string) (year : Z) (log : list request)
    (r : response) :
  http log (holidays_request cc year) = inr r ->
  status_code r = 404 ->
  exists m,
    get_public_holidays http cc year log
    = (inr (VList [VDict [("error", VStr m)]]),
       log ++ [holidays_request cc year])
    /\ m = "Country code '" +:+ cc +:+
           "' not found. Use ISO 3166-1 alpha-2 codes like: MA (Morocco), FR (France), US (USA), DE (Germany), GB (UK), JP (Japan)"
    /\ Forall (fun code => is_substring code m = true)
              ["MA (Morocco)"; "FR (France)"; "US (USA)"; "DE (Germany)";
               "GB (UK)"; "JP (Japan)"]
    /\ String.prefix "HTTP error" m = false.
Proof.
  intros Hreq H404. eexists. split; [|split; [reflexivity|split]].
  - unfold get_public_holidays, try_except, get_public_holidays_body,
      requests_get.
    rewrite (send_ok_bind _ _ r) by exact Hreq.
    unfold bind at 1, lift, raise_for_status. rewrite H404. reflexivity.
  - repeat constructor;
      apply (is_substring_app_r _ "Country code '"), is_substring_app_r;
      vm_compute; reflexivity.
  - reflexivity.
Qed.

Lemma holiday_not_found_is_corrective_witness :
  get_public_holidays (unicode := sample_case) unknown_country "ZZ" 2025 []
  = (inr (VList
       [VDict
          [("error",
            VStr "Country code 'ZZ' not found. Use ISO 3166-1 alpha-2 codes like: MA (Morocco), FR (France), US (USA), DE (Germany), GB (UK), JP (Japan)")]]),
     [holidays_request (unicode := sample_case) "ZZ" 2025]).
Proof.
  destruct (holiday_not_found_is_corrective (unicode := sample_case)
              unknown_country "ZZ" 2025 []
              (Response 404 "Not Found"
                        (url (holidays_request (unicode := sample_case)
                                               "ZZ" 2025))
                        (raise ValueError "")))
    as (m & Hrun & -> & _).
  - reflexivity.
  - reflexivity.
  - exact Hrun.
Defined.

(** C9: the result of [search_scholarships] does not depend on [field]:
    for the same network, log, country and level, any two fields give the
    same value and the same requests.  The one request sent carries the
    lowercased country and level and no field, and the built-in dataset is
    selected by the lowercased country alone. *)
Theorem search_scholarships_ignores_field {unicode : unicode_case} (http : oracle)
    (country level f1 f2 : string) (log : list request) :
  search_scholarships http country f1 level log
  = search_scholarships http country f2 level log
  /\ (search_scholarships http country f1 level log).2
     = log ++ [scholarships_request country level]
  /\ dict_keys (params (scholarships_request country level))
     = ["country"; "level"]
  /\ forall country' level',
       lower country' = lower country ->
       _get_mock_scholarships country' f2 level'
       = _get_mock_scholarships country f1 level.
Proof.
  split; [reflexivity|]. split; [apply search_scholarships_one_request|].
  split; [reflexivity|].
  intros country' level' Hc.
  by rewrite !mock_scholarships_selection, Hc.
Qed.

Lemma search_scholarships_ignores_field_witness :
  search_scholarships (unicode := sample_case)
                      unreachable "France" "Law" "master" []
  = search_scholarships (unicode := sample_case)
                        unreachable "France" "Physics" "master" []
  /\ _get_mock_scholarships (unicode := sample_case) "FRANCE" "Physics" "phd"
     = _get_mock_scholarships (unicode := sample_case) "France" "Law" "master".
Proof.
  destruct (search_scholarships_ignores_field (unicode := sample_case)
              unreachable "France" "master" "Law" "Physics" [])
    as (Hsame & _ & _ & Hmock).
  split; [exact Hsame|]. apply Hmock. reflexivity.
Defined.

(** C10: with TAVILY_API_KEY unset, [search_city_info] returns the error
    result for every city and leaves the request log as it was: no request is
    made. *)
Theorem search_city_info_without_key (http : oracle)
    (getenv : string -> option string) (city : string) (log : list request) :
  getenv "TAVILY_API_KEY" = None ->
  search_city_info http getenv city log
  = (inr (VDict [("error", VStr "TAVILY_API_KEY not set in .env file")]), log).
Proof. intros H. unfold search_city_info. by rewrite H. Qed.

Lemma search_city_info_without_key_witness :
  search_city_info unreachable (fun _ => None) "Rabat" []
  = (inr (VDict [("error", VStr "TAVILY_API_KEY not set in .env file")]), []).
Proof.
  apply (search_city_info_without_key unreachable (fun _ => None) "Rabat" []).
  reflexivity.
Defined.

End ToolProps.

(* ===================================================================== *)
(** ** Properties of the entry hook and of dispatch *)
(* ===================================================================== *)

Module AgentProps.
Import Py Agents AgentSpec.

(** *** The hook *)

Lemma add_one_number (v : value) :
  is_number v = true -> exists w, add_one v = inr w /\ is_number w = true.
Proof. destruct v; try discriminate; intros _; eexists; by split. Qed.

Lemma hook_runs (ctx : CallbackContext) (w : value) :
  add_one (read_counter "user:agent_call_count" (state ctx)) = inr w ->
  check_and_log_agent_entry ctx
  = inr (if skip_requested (state ctx) then Some (skipped (agent_name ctx))
         else None,
         <["temp:current_agent" := VStr (agent_name ctx)]>
           (<["user:agent_call_count" := w]> (state ctx))).
Proof.
  intros H. unfold check_and_log_agent_entry, read_counter in *.
  rewrite H. unfold res_bind, skip_requested.
  by destruct (truthy _).
Qed.

(** The hook writes the counter and the current agent, nothing else. *)
Lemma hook_state_counter (st : State) (name : string) (w : value) :
  (<["temp:current_agent" := VStr name]>
     (<["user:agent_call_count" := w]> st)) !! "user:agent_call_count"
  = Some w.
Proof. by rewrite lookup_insert_ne, lookup_insert_eq. Qed.

Lemma hook_state_other (st : State) (name : string) (w : value) (k : string) :
  k <> "temp:current_agent" -> k <> "user:agent_call_count" ->
  (<["temp:current_agent" := VStr name]>
     (<["user:agent_call_count" := w]> st)) !! k
  = st !! k.
Proof. intros H1 H2. by rewrite !lookup_insert_ne. Qed.

(** *** One turn *)

Section Turns.

Variable run_body : Agent -> State -> string -> list event * Content.

Lemma turn_runs (st : State) (user_text : string) (w : value) :
  add_one (read_counter "user:agent_call_count" st) = inr w ->
  exists c ev,
    turn run_body st user_text
    = inr (c,
           <["temp:current_agent" := VStr "root_agent"]>
             (<["user:agent_call_count" := w]> st),
           ev)
    /\ (skip_requested st = true -> c = skipped "root_agent" /\ ev = []).
Proof.
  intros H. unfold turn, run_agent.
  cbn [before_agent_callback root_agent name].
  rewrite (hook_runs (mkCallbackContext "root_agent" st) w) by exact H.
  cbn [res_bind state agent_name].
  destruct (skip_requested st).
  - eexists _, _. split; [reflexivity|]. by intros _.
  - destruct (run_body _ _ _) as [ev c].
    eexists _, _. split; [reflexivity|]. discriminate.
Qed.

Lemma turn_counts (st : State) (user_text : string) (k : Z) :
  read_counter "user:agent_call_count" st = VInt k ->
  exists c st' ev,
    turn run_body st user_text = inr (c, st', ev)
    /\ st' !! "user:agent_call_count" = Some (VInt (k + 1)).
Proof.
  intros H.
  destruct (turn_runs st user_text (VInt (k + 1))) as (c & ev & Hrun & _).
  { by rewrite H. }
  eexists c, _, ev. split; [exact Hrun|]. apply hook_state_counter.
Qed.

Lemma session_counts (requests : list string) (st : State) (k : Z) :
  read_counter "user:agent_call_count" st = VInt k ->
  exists st' cs,
    run_session run_body st requests = inr (st', cs)
    /\ length cs = length requests
    /\ read_counter "user:agent_call_count" st'
       = VInt (k + Z.of_nat (length requests)).
Proof.
  revert st k. induction requests as [|user_text rest IH]; intros st k H.
  - exists st, []. cbn. by rewrite Z.add_0_r.
  - destruct (turn_counts st user_text k H) as (c & st1 & ev & Hturn & Hk).
    destruct (IH st1 (k + 1)) as (st' & cs & Hrest & Hlen & Hcount).
    { unfold read_counter. by rewrite Hk. }
    exists st', (c :: cs). cbn [run_session].
    rewrite Hturn. cbn [res_bind]. rewrite Hrest. cbn [res_bind].
    split; [reflexivity|]. split; [cbn; by rewrite Hlen|].
    rewrite Hcount. f_equal. cbn [length]. lia.
Qed.

End Turns.

(** *** The claims *)

(** C2 (counterexample): after one turn of a fresh session the state has no
    key [user:call_count]; the hook counts under [user:agent_call_count]. *)
Lemma call_count_key_counterexample : ~ counter_equals_turns "user:call_count".
Proof.
  intros H.
  destruct (H echo_body ∅ ["hello"] (lookup_empty _))
    as (st' & cs & Hrun & Hcount).
  destruct (turn_runs echo_body ∅ "hello" (VInt 1)) as (c & ev & Hturn & _).
  { unfold read_counter. by rewrite lookup_empty. }
  cbn [run_session] in Hrun. rewrite Hturn in Hrun.
  cbn [res_bind ok] in Hrun. injection Hrun as <- _.
  unfold read_counter in Hcount.
  rewrite hook_state_other, lookup_empty in Hcount by done.
  discriminate.
Qed.

(** C2 (amended): for every session whose state starts without the key
    [user:agent_call_count], every agent body and every list of N requests,
    the session runs all N turns and afterwards the counter stored under
    [user:agent_call_count] is N, whatever [skip_processing] holds and
    whichever handler ran. *)
Theorem agent_call_count_equals_turns
    (run_body : Agent -> State -> string -> list event * Content)
    (st : State) (requests : list string) :
  st !! "user:agent_call_count" = None ->
  exists st' cs,
    run_session run_body st requests = inr (st', cs)
    /\ length cs = length requests
    /\ read_counter "user:agent_call_count" st'
       = VInt (Z.of_nat (length requests))
    /\ (requests <> [] ->
        st' !! "user:agent_call_count"
        = Some (VInt (Z.of_nat (length requests)))).
Proof.
  intros Hfresh.
  destruct (session_counts run_body requests st 0)
    as (st' & cs & Hrun & Hlen & Hcount).
  { unfold read_counter. by rewrite Hfresh. }
  rewrite Z.add_0_l in Hcount.
  exists st', cs. repeat split; try done.
  intros Hne. unfold read_counter in Hcount.
  destruct (st' !! "user:agent_call_count") as [v|]; cbn in Hcount.
  - by rewrite Hcount.
  - destruct requests; [done | discriminate].
Qed.

Lemma agent_call_count_equals_turns_witness :
  exists st' cs,
    run_session echo_body {["skip_processing" := VBool true]}
                ["weather in Rabat"; "holidays in France"; "a master in Qatar"]
    = inr (st', cs)
    /\ st' !! "user:agent_call_count" = Some (VInt 3).
Proof.
  destruct (agent_call_count_equals_turns echo_body
              {["skip_processing" := VBool true]}
              ["weather in Rabat"; "holidays in France"; "a master in Qatar"])
    as (st' & cs & Hrun & _ & _ & Hstored).
  - vm_compute. reflexivity.
  - exists st', cs. split; [exact Hrun|]. apply Hstored. discriminate.
Defined.

(** C3 (counterexample): with [skip_processing = True] and the string "3"
    stored under [user:agent_call_count], the entry hook raises [TypeError]
    at the increment, before the skip test: no skipped marker is returned. *)
Lemma skip_with_bad_counter_counterexample : ~ skip_always_short_circuits.
Proof.
  intros H.
  destruct (H echo_body
              (<["user:agent_call_count" := VStr "3"]>
                 {["skip_processing" := VBool true]})
              "weather in Rabat") as (st' & Hhook & _).
  { vm_compute. reflexivity. }
  vm_compute in Hhook. discriminate Hhook.
Qed.

(** C3 (amended): when the state holds [skip_processing = True] before the
    dispatch and the value stored under [user:agent_call_count], if any, is a
    number, the entry hook returns the content "Agent root_agent skipped." and
    the turn ends with that content and no event: no handler runs, no tool is
    called and no generation call is made. *)
Theorem skip_processing_short_circuits
    (run_body : Agent -> State -> string -> list event * Content)
    (st : State) (user_text : string) :
  st !! "skip_processing" = Some (VBool true) ->
  counter_well_typed st = true ->
  exists st',
    check_and_log_agent_entry (mkCallbackContext "root_agent" st)
    = inr (Some (mkContent [mkPart "Agent root_agent skipped."] "model"), st')
    /\ turn run_body st user_text
       = inr (mkContent [mkPart "Agent root_agent skipped."] "model", st', []).
Proof.
  intros Hskip Hnum.
  destruct (add_one_number _ Hnum) as (w & Hw & _).
  assert (Hreq : skip_requested st = true).
  { unfold skip_requested. by rewrite Hskip. }
  eexists. split.
  - rewrite (hook_runs _ w) by exact Hw.
    cbn [state agent_name]. rewrite Hreq. reflexivity.
  - destruct (turn_runs run_body st user_text w Hw) as (c & ev & Hturn & Hs).
    destruct (Hs Hreq) as [-> ->]. exact Hturn.
Qed.

Lemma skip_processing_short_circuits_witness :
  exists st',
    turn echo_body {["skip_processing" := VBool true]} "weather in Rabat"
    = inr (mkContent [mkPart "Agent root_agent skipped."] "model", st', []).
Proof.
  destruct (skip_processing_short_circuits echo_body
              {["skip_processing" := VBool true]} "weather in Rabat")
    as (st' & _ & Hturn).
  - vm_compute. reflexivity.
  - vm_compute. reflexivity.
  - by exists st'.
Defined.

End AgentProps.

(* ===================================================================== *)
(** ** Further properties of the tool adapters *)
(* ===================================================================== *)

Module ToolExtras.
Import Py Http Tools ToolSpec HttpFacts ToolProps.
Local Open Scope http_scope.

(** *** Dicts: membership agrees with lookup *)

Lemma dict_lookup_Some_keys (k : string) (d : list (string * value)) (v : value) :
  dict_lookup k d = Some v -> k ∈ dict_keys d.
Proof.
  induction d as [|[k' v'] d IH]; [discriminate|].
  cbn [dict_lookup]. unfold dict_keys. cbn [fmap list_fmap fst].
  destruct (String.eqb_spec k k') as [->|Hne].
  - intros _. apply list_elem_of_here.
  - intros H. apply list_elem_of_further, IH, H.
Qed.

Lemma dict_lookup_None_keys (k : string) (d : list (string * value)) :
  dict_lookup k d = None -> k ∉ dict_keys d.
Proof.
  induction d as [|[k' v'] d IH]; intros H.
  - apply not_elem_of_nil.
  - cbn [dict_lookup] in H. unfold dict_keys. cbn [fmap list_fmap fst].
    destruct (String.eqb_spec k k') as [->|Hne]; [discriminate|].
    apply not_elem_of_cons. split; [exact Hne | by apply IH].
Qed.

Lemma try_except_log {A} (m : M A) (h : exn -> A) log :
  (try_except m (fun e => ret (h e)) log).2 = (m log).2.
Proof. unfold try_except. by destruct (m log) as [[e|a] log']. Qed.

(** *** The request log *)

Lemma logs_ret {A} (P : list request -> Prop) (a : A) : P [] -> logs P (ret a).
Proof. intros H log. exists []. by rewrite app_nil_r. Qed.

Lemma logs_lift_bind {A B} (P : list request -> Prop) (r : res A)
    (f : A -> M B) :
  P [] -> (forall a, logs P (f a)) -> logs P (bind (lift r) f).
Proof.
  intros H0 Hf log. destruct r as [e|a].
  - exists []. by rewrite app_nil_r.
  - apply Hf.
Qed.

Lemma logs_if {A} (P : list request -> Prop) (b : bool) (m1 m2 : M A) :
  logs P m1 -> logs P m2 -> logs P (if b then m1 else m2).
Proof. by destruct b. Qed.

Lemma logs_send_bind {A} (P Q : list request -> Prop) (http : oracle) rq
    (f : response -> M A) :
  P [rq] -> (forall extra, Q extra -> P (rq :: extra)) ->
  (forall r, logs Q (f r)) -> logs P (bind (send http rq) f).
Proof.
  intros H1 HQ Hf log. unfold bind, send.
  destruct (http log rq) as [e|r].
  - by exists [rq].
  - destruct (Hf r (log ++ [rq])) as (extra & -> & Hextra).
    exists (rq :: extra). split; [by rewrite <- app_assoc | by apply HQ].
Qed.

Lemma logs_try_except {A} (P : list request -> Prop) (m : M A) (h : exn -> A) :
  logs P m -> logs P (try_except m (fun e => ret (h e))).
Proof. intros H log. rewrite try_except_log. apply H. Qed.

(** X1: [get_weather] sends the geocoding request first and at most one
    more request, the forecast request; whatever happens, nothing else is
    sent. *)
Theorem get_weather_requests (http : oracle) (city : string) :
  logs (fun extra =>
          extra = [geocode_request city]
          \/ exists lat lon,
               extra = [geocode_request city; forecast_request lat lon])
       (get_weather http city).
Proof.
  apply logs_try_except. unfold get_weather_body, requests_get.
  apply (logs_send_bind _ (fun extra =>
           extra = [] \/ exists lat lon, extra = [forecast_request lat lon])).
  { by left. }
  { intros extra [->|(lat & lon & ->)]; [by left | right; by exists lat, lon]. }
  intros geo_response.
  do 4 (apply logs_lift_bind; [by left | intros ?]).
  apply logs_if; [apply logs_ret; by left|].
  do 8 (apply logs_lift_bind; [by left | intros ?]).
  apply (logs_send_bind _ (fun extra => extra = [])).
  { right. by eexists _, _. }
  { intros extra ->. right. by eexists _, _. }
  intros weather_response.
  do 8 (apply logs_lift_bind; [done | intros ?]).
  by apply logs_ret.
Qed.

Lemma contains_dict_true k d v :
  dict_lookup k d = Some v -> contains k (VDict d) = ok true.
Proof.
  intros H. cbn [contains]. f_equal. apply bool_decide_eq_true.
  by apply (dict_lookup_Some_keys _ _ v).
Qed.

Lemma contains_dict_false k d :
  dict_lookup k d = None -> contains k (VDict d) = ok false.
Proof.
  intros H. cbn [contains]. f_equal. apply bool_decide_eq_false.
  by apply dict_lookup_None_keys.
Qed.

Lemma getitem_str_dict k d v :
  dict_lookup k d = Some v -> getitem_str (VDict d) k = ok v.
Proof. intros H. cbn [getitem_str]. by rewrite H. Qed.

(** X2: when the geocoder answers with a JSON object that has no [results]
    member, or an empty one, [get_weather] returns the error "City '...' not
    found" and sends no forecast request. *)
Theorem get_weather_city_not_found (http : oracle) city log r g :
  http log (geocode_request city) = inr r ->
  raise_for_status r = inr tt ->
  json r = inr (VDict g) ->
  dict_lookup "results" g = None \/ dict_lookup "results" g = Some (VList []) ->
  get_weather http city log
  = (inr (city_not_found city), log ++ [geocode_request city]).
Proof.
  intros Hreq Hs Hj Hres.
  unfold get_weather, try_except, get_weather_body, requests_get.
  rewrite (send_ok_bind _ _ r) by exact Hreq.
  rewrite Hs, bind_lift_ok, Hj, bind_lift_ok.
  destruct Hres as [Hn|He].
  - rewrite (contains_dict_false _ _ Hn). reflexivity.
  - rewrite (contains_dict_true _ _ _ He), bind_lift_ok.
    cbn [negb]. rewrite (getitem_str_dict _ _ _ He). reflexivity.
Qed.

Lemma get_weather_city_not_found_witness :
  get_weather (scripted [VDict [("results", VList [])]]) "Atlantis" []
  = (inr (VDict [("error", VStr "City 'Atlantis' not found")]),
     [geocode_request "Atlantis"]).
Proof.
  apply (get_weather_city_not_found
           (scripted [VDict [("results", VList [])]]) "Atlantis" []
           (Response 200 "OK" (url (geocode_request "Atlantis"))
                     (ok (VDict [("results", VList [])])))
           [("results", VList [])]).
  - reflexivity.
  - reflexivity.
  - reflexivity.
  - right. reflexivity.
Defined.

Lemma get_weather_runs (http : oracle) city log r1 g rd rest lat lon nm r2 w
    cur cd :
  http log (geocode_request city) = inr r1 ->
  raise_for_status r1 = inr tt ->
  json r1 = inr (VDict g) ->
  dict_lookup "results" g = Some (VList (VDict rd :: rest)) ->
  dict_lookup "latitude" rd = Some lat ->
  dict_lookup "longitude" rd = Some lon ->
  dict_lookup "name" rd = Some nm ->
  http (log ++ [geocode_request city]) (forecast_request lat lon) = inr r2 ->
  raise_for_status r2 = inr tt ->
  json r2 = inr (VDict w) ->
  default (VDict []) (dict_lookup "current" w) = VDict cur ->
  _get_weather_description (default (VInt 0) (dict_lookup "weather_code" cur))
  = inr cd ->
  get_weather http city log
  = (inr (VDict
       [("city", nm);
        ("country", default (VStr "") (dict_lookup "country" rd));
        ("temperature", default (VInt 0) (dict_lookup "temperature_2m" cur));
        ("temperature_unit", VStr "°C");
        ("condition", VStr cd.1);
        ("description", VStr cd.2);
        ("wind_speed", default (VInt 0) (dict_lookup "wind_speed_10m" cur));
        ("wind_unit", VStr "km/h");
        ("humidity",
         default (VInt 0) (dict_lookup "relative_humidity_2m" cur))]),
     log ++ [geocode_request city; forecast_request lat lon]).
Proof.
  intros Hreq1 Hs1 Hj1 Hres Hlat Hlon Hnm Hreq2 Hs2 Hj2 Hcur Hcd.
  unfold get_weather, try_except, get_weather_body, requests_get.
  rewrite (send_ok_bind _ _ r1) by exact Hreq1.
  rewrite Hs1, bind_lift_ok, Hj1, bind_lift_ok.
  rewrite (contains_dict_true _ _ _ Hres). run_step.
  rewrite (getitem_str_dict _ _ _ Hres). run_step.
  cbn [length].
  replace (Z.of_nat (S (length rest)) =? 0) with false
    by (symmetry; apply Z.eqb_neq; lia).
  unfold first_result. rewrite (getitem_str_dict _ _ _ Hres). run_step.
  rewrite (getitem_str_dict _ _ _ Hlat). run_step.
  rewrite (getitem_str_dict _ _ _ Hlon). run_step.
  rewrite (getitem_str_dict _ _ _ Hnm). run_step.
  change (Request GET "https://api.open-meteo.com/v1/forecast" _ None 10)
    with (forecast_request lat lon).
  rewrite (send_ok_bind _ _ r2) by exact Hreq2.
  rewrite Hs2, bind_lift_ok, Hj2. run_step.
  rewrite Hcur. run_step. rewrite Hcd. run_step.
  unfold ret. by rewrite <- app_assoc.
Qed.

(** X3: when the geocoder answers with a first result that has latitude,
    longitude and name, and the forecast answers with a JSON object whose
    [current] member (default: empty) is an object, [get_weather] returns the
    success payload: the geocoder's name and country (default ""), the
    forecast's temperature, wind speed and humidity (default 0), and the
    condition and description of the weather code (default 0); the forecast
    request carries the geocoder's coordinates. *)
Theorem get_weather_success (http : oracle) city log r1 g rd rest lat lon nm
    r2 w cur cd :
  http log (geocode_request city) = inr r1 ->
  raise_for_status r1 = inr tt ->
  json r1 = inr (VDict g) ->
  dict_lookup "results" g = Some (VList (VDict rd :: rest)) ->
  dict_lookup "latitude" rd = Some lat ->
  dict_lookup "longitude" rd = Some lon ->
  dict_lookup "name" rd = Some nm ->
  http (log ++ [geocode_request city]) (forecast_request lat lon) = inr r2 ->
  raise_for_status r2 = inr tt ->
  json r2 = inr (VDict w) ->
  default (VDict []) (dict_lookup "current" w) = VDict cur ->
  _get_weather_description (default (VInt 0) (dict_lookup "weather_code" cur))
  = inr cd ->
  exists v,
    get_weather http city log
    = (inr v, log ++ [geocode_request city; forecast_request lat lon])
    /\ keys_of v = Some weather_success_keys
    /\ field "city" v = Some nm
    /\ field "country" v = Some (default (VStr "") (dict_lookup "country" rd))
    /\ field "temperature" v
       = Some (default (VInt 0) (dict_lookup "temperature_2m" cur))
    /\ field "condition" v = Some (VStr cd.1)
    /\ field "description" v = Some (VStr cd.2)
    /\ field "wind_speed" v
       = Some (default (VInt 0) (dict_lookup "wind_speed_10m" cur))
    /\ field "humidity" v
       = Some (default (VInt 0) (dict_lookup "relative_humidity_2m" cur)).
Proof.
  intros. eexists. split.
  - by eapply get_weather_runs.
  - by repeat split.
Qed.

Lemma get_weather_success_witness :
  exists v,
    get_weather (scripted [paris_geocoding; paris_forecast]) "paris" []
    = (inr v, [geocode_request "paris"; forecast_request (VInt 48) (VInt 2)])
    /\ field "city" v = Some (VStr "Paris")
    /\ field "temperature" v = Some (VInt 18)
    /\ field "condition" v = Some (VStr "Light Rain").
Proof.
  destruct (get_weather_success
              (scripted [paris_geocoding; paris_forecast]) "paris" []
              (Response 200 "OK" (url (geocode_request "paris"))
                        (ok paris_geocoding))
              [("results",
                VList [VDict [("name", VStr "Paris"); ("latitude", VInt 48);
                              ("longitude", VInt 2);
                              ("country", VStr "France")]])]
              [("name", VStr "Paris"); ("latitude", VInt 48);
               ("longitude", VInt 2); ("country", VStr "France")]
              [] (VInt 48) (VInt 2) (VStr "Paris")
              (Response 200 "OK"
                        (url (forecast_request (VInt 48) (VInt 2)))
                        (ok paris_forecast))
              [("current",
                VDict [("temperature_2m", VInt 18); ("weather_code", VInt 61);
                       ("wind_speed_10m", VInt 12);
                       ("relative_humidity_2m", VInt 70)])]
              [("temperature_2m", VInt 18); ("weather_code", VInt 61);
               ("wind_speed_10m", VInt 12); ("relative_humidity_2m", VInt 70)]
              ("Light Rain", "Slight rain"))
    as (v & Hrun & _ & Hcity & _ & Htemp & Hcond & _).
  all: try reflexivity.
  exists v. by repeat split.
Defined.

(** X4: when the forecast answers with a JSON object that has no [current]
    member, [get_weather] still returns a success payload, reporting
    temperature 0, condition "Clear" ("Clear sky"), wind speed 0 and
    humidity 0. *)
Theorem get_weather_missing_current (http : oracle) city log r1 g rd rest lat
    lon nm r2 w :
  http log (geocode_request city) = inr r1 ->
  raise_for_status r1 = inr tt ->
  json r1 = inr (VDict g) ->
  dict_lookup "results" g = Some (VList (VDict rd :: rest)) ->
  dict_lookup "latitude" rd = Some lat ->
  dict_lookup "longitude" rd = Some lon ->
  dict_lookup "name" rd = Some nm ->
  http (log ++ [geocode_request city]) (forecast_request lat lon) = inr r2 ->
  raise_for_status r2 = inr tt ->
  json r2 = inr (VDict w) ->
  dict_lookup "current" w = None ->
  get_weather http city log
  = (inr (VDict
       [("city", nm);
        ("country", default (VStr "") (dict_lookup "country" rd));
        ("temperature", VInt 0);
        ("temperature_unit", VStr "°C");
        ("condition", VStr "Clear");
        ("description", VStr "Clear sky");
        ("wind_speed", VInt 0);
        ("wind_unit", VStr "km/h");
        ("humidity", VInt 0)]),
     log ++ [geocode_request city; forecast_request lat lon]).
Proof.
  intros H1 H2 H3 H4 H5 H6 H7 H8 H9 H10 Hcur.
  apply (get_weather_runs http city log r1 g rd rest lat lon nm r2 w []
           ("Clear", "Clear sky")); try done.
  by rewrite Hcur.
Qed.

Lemma get_weather_missing_current_witness :
  exists v,
    get_weather (scripted [paris_geocoding; VDict []]) "paris" []
    = (inr v, [geocode_request "paris"; forecast_request (VInt 48) (VInt 2)])
    /\ field "temperature" v = Some (VInt 0)
    /\ field "condition" v = Some (VStr "Clear").
Proof.
  eexists. split.
  - apply (get_weather_missing_current
             (scripted [paris_geocoding; VDict []]) "paris" []
             (Response 200 "OK" (url (geocode_request "paris"))
                       (ok paris_geocoding))
             [("results",
               VList [VDict [("name", VStr "Paris"); ("latitude", VInt 48);
                             ("longitude", VInt 2);
                             ("country", VStr "France")]])]
             [("name", VStr "Paris"); ("latitude", VInt 48);
              ("longitude", VInt 2); ("country", VStr "France")]
             [] (VInt 48) (VInt 2) (VStr "Paris")
             (Response 200 "OK"
                       (url (forecast_request (VInt 48) (VInt 2)))
                       (ok (VDict [])))
             []); reflexivity.
  - split; reflexivity.
Defined.

(** *** [get_public_holidays] *)


Lemma format_holiday_inv (h x : value) :
  format_holiday h = inr x -> formatted_holiday h x.
Proof.
  destruct h as [| | | | |l|d]; try discriminate.
  unfold format_holiday. run_step.
  destruct (join _ _) as [e|ty] eqn:Hj; [discriminate|].
  run_step. intros [= <-]. by exists d, ty.
Qed.

Lemma format_holidays_inv (hs r : list value) :
  format_holidays hs = inr r -> Forall2 formatted_holiday hs r.
Proof.
  revert r. induction hs as [|h hs IH]; intros r.
  - intros [= <-]. constructor.
  - cbn [format_holidays].
    destruct (format_holiday h) as [e|x] eqn:Hh; [discriminate|].
    cbn [res_bind].
    destruct (format_holidays hs) as [e|r'] eqn:Hr; [discriminate|].
    cbn [res_bind]. intros [= <-].
    constructor; [by apply format_holiday_inv | by apply IH].
Qed.



Lemma format_holidays_total (hs : list value) :
  Forall well_formed_holiday hs -> exists out, format_holidays hs = inr out.
Proof.
  induction 1 as [|h hs (d & ty & -> & Hty) _ (out & Hout)].
  - by exists [].
  - cbn [format_holidays]. unfold format_holiday. run_step.
    rewrite Hty. run_step. rewrite Hout. by eexists.
Qed.

(** X5: when the lookup answers 200 with a JSON list of well-formed
    holidays, [get_public_holidays] returns one entry per holiday, in the same
    order, each built from its holiday: the date, the local name (the English
    name when there is none), the English name, the fixed flag and the joined
    types. *)
Theorem holidays_success {unicode : unicode_case} (http : oracle) cc year log r hs :
  http log (holidays_request cc year) = inr r ->
  raise_for_status r = inr tt ->
  json r = inr (VList hs) ->
  Forall well_formed_holiday hs ->
  exists out,
    get_public_holidays http cc year log
    = (inr (VList out), log ++ [holidays_request cc year])
    /\ Forall2 formatted_holiday hs out.
Proof.
  intros Hreq Hs Hj Hwf.
  destruct (format_holidays_total hs Hwf) as (out & Hout).
  exists out. split; [|by apply format_holidays_inv].
  unfold get_public_holidays, try_except, get_public_holidays_body,
    requests_get.
  rewrite (send_ok_bind _ _ r) by exact Hreq.
  rewrite Hs, bind_lift_ok, Hj, bind_lift_ok.
  cbn [iter]. unfold ok. rewrite bind_lift_ok, Hout. reflexivity.
Qed.

Lemma holidays_success_witness :
  exists out,
    get_public_holidays (unicode := sample_case) (scripted [VList [new_year]]) "ma" 2025 []
    = (inr (VList out), [holidays_request (unicode := sample_case) "ma" 2025])
    /\ Forall2 formatted_holiday [new_year] out.
Proof.
  apply (holidays_success (unicode := sample_case) (scripted [VList [new_year]]) "ma" 2025 []
           (Response 200 "OK" (url (holidays_request (unicode := sample_case) "ma" 2025))
                     (ok (VList [new_year])))
           [new_year]).
  - reflexivity.
  - reflexivity.
  - reflexivity.
  - repeat constructor. eexists _, _. split; reflexivity.
Defined.


(** X7: when the lookup answers with an error status other than 404 (any
    other 4xx or 5xx), [get_public_holidays] returns the single entry whose
    error is "HTTP error: " followed by the text of the raised [HTTPError]. *)
Theorem holidays_http_error_is_raw {unicode : unicode_case} (http : oracle) cc year log r :
  http log (holidays_request cc year) = inr r ->
  400 <= status_code r < 600 ->
  status_code r <> 404 ->
  exists e,
    raise_for_status r = inl e
    /\ cls e = HTTPError (status_code r)
    /\ get_public_holidays http cc year log
       = (inr (VList [VDict [("error", VStr ("HTTP error: " +:+ msg e))]]),
          log ++ [holidays_request cc year]).
Proof.
  intros Hreq Hrange Hne.
  assert (exists e, raise_for_status r = inl e
                    /\ cls e = HTTPError (status_code r)) as (e & He & Hcls).
  { unfold raise_for_status.
    destruct (decide (status_code r < 500)) as [Hlt|Hge].
    - replace ((400 <=? status_code r) && (status_code r <? 500)) with true
        by (symmetry; apply andb_true_intro; split;
            [apply Z.leb_le | apply Z.ltb_lt]; lia).
      by eexists.
    - replace ((400 <=? status_code r) && (status_code r <? 500)) with false
        by (symmetry; apply andb_false_intro2, Z.ltb_ge; lia).
      replace ((500 <=? status_code r) && (status_code r <? 600)) with true
        by (symmetry; apply andb_true_intro; split;
            [apply Z.leb_le | apply Z.ltb_lt]; lia).
      by eexists. }
  exists e. split; [exact He|]. split; [exact Hcls|].
  unfold get_public_holidays, try_except, get_public_holidays_body,
    requests_get.
  rewrite (send_ok_bind _ _ r) by exact Hreq.
  rewrite He, bind_lift_raise. unfold ret, holidays_handler. rewrite Hcls.
  by replace (status_code r =? 404) with false
    by (symmetry; apply Z.eqb_neq; lia).
Qed.

Lemma holidays_http_error_is_raw_witness :
  get_public_holidays (unicode := sample_case)
    (refuses 500 "Internal Server Error") "MA" 2025 []
  = (inr (VList
       [VDict
          [("error",
            VStr "HTTP error: 500 Server Error: Internal Server Error for url: https://date.nager.at/api/v3/publicholidays/2025/MA")]]),
     [holidays_request (unicode := sample_case) "MA" 2025]).
Proof.
  destruct (holidays_http_error_is_raw (unicode := sample_case)
              (refuses 500 "Internal Server Error") "MA" 2025 []
              (Response 500 "Internal Server Error"
                        (url (holidays_request (unicode := sample_case)
                                               "MA" 2025))
                        (raise ValueError "")))
    as (e & He & _ & Hrun).
  - reflexivity.
  - cbn. lia.
  - cbn. lia.
  - vm_compute in He. injection He as <-. exact Hrun.
Defined.

(** X8: two spellings of a country code that agree once uppercased give the
    same result; the one exception is the not-found answer, where each call
    returns the corrective message quoting the code as it was typed. *)
Theorem holidays_code_case_insensitive {unicode : unicode_case} (http : oracle) cc cc' year log :
  upper cc = upper cc' ->
  get_public_holidays http cc year log = get_public_holidays http cc' year log
  \/ exists log',
       get_public_holidays http cc year log
       = (inr (error_list (not_found_text cc)), log')
       /\ get_public_holidays http cc' year log
          = (inr (error_list (not_found_text cc')), log').
Proof.
  intros Hup.
  assert (Hbody : get_public_holidays_body http cc year
                  = get_public_holidays_body http cc' year).
  { unfold get_public_holidays_body, holidays_url. by rewrite Hup. }
  unfold get_public_holidays, try_except. rewrite <- Hbody.
  destruct (get_public_holidays_body http cc year log) as [[e|v] log'].
  - unfold ret, holidays_handler. destruct (cls e) as [|status| | | | |];
      try by left.
    destruct (status =? 404); [right; by exists log' | by left].
  - by left.
Qed.

Lemma holidays_code_case_insensitive_witness :
  get_public_holidays (unicode := sample_case)
    (scripted [VList [new_year]]) "ma" 2025 []
  = get_public_holidays (unicode := sample_case)
      (scripted [VList [new_year]]) "MA" 2025 []
  \/ exists log',
       get_public_holidays (unicode := sample_case)
         (scripted [VList [new_year]]) "ma" 2025 []
       = (inr (error_list (not_found_text "ma")), log')
       /\ get_public_holidays (unicode := sample_case)
            (scripted [VList [new_year]]) "MA" 2025 []
          = (inr (error_list (not_found_text "MA")), log').
Proof.
  apply (holidays_code_case_insensitive (unicode := sample_case)
           (scripted [VList [new_year]]) "ma" "MA" 2025 []).
  reflexivity.
Defined.

(** *** [search_city_info] *)






Lemma quiet_lift_bind {A B} (r : res A) (f : A -> M B) :
  (forall a, logs (fun extra => extra = []) (f a)) ->
  logs (fun extra => extra = []) (bind (lift r) f).
Proof. intros H. by apply logs_lift_bind. Qed.

(** X10: [search_city_info] sends no request when TAVILY_API_KEY is unset
    or empty, and otherwise exactly one: the POST to the search endpoint that
    carries the key and the query built from the city. *)
Theorem search_city_info_requests (http : oracle)
    (getenv : string -> option string) (city : string) (log : list request) :
  (search_city_info http getenv city log).2
  = log ++ match getenv "TAVILY_API_KEY" with
           | Some (String c k) => [tavily_request (String c k) city]
           | _ => []
           end.
Proof.
  unfold search_city_info.
  destruct (getenv "TAVILY_API_KEY") as [[|c k]|].
  1, 3: by rewrite app_nil_r.
  rewrite try_except_log.
  assert (H : logs (fun extra => extra = [tavily_request (String c k) city])
                (search_city_info_body http (String c k) city)).
  { unfold search_city_info_body, requests_post.
    apply (logs_send_bind _ (fun extra => extra = [])); [done | by intros ? -> |].
    intros r. do 7 (apply quiet_lift_bind; intros ?). by apply logs_ret. }
  by destruct (H log) as (extra & -> & ->).
Qed.

(** X11: with a key set, an error status from the search endpoint comes
    back as [{error: "Tavily API error: ...", city}]: the raised [HTTPError]
    is caught by the [RequestException] clause, and the city is echoed. *)
Theorem search_city_info_http_error (http : oracle)
    (getenv : string -> option string) (city : string) (log : list request)
    (c : ascii) (k : string) (r : response) (e : exn) :
  getenv "TAVILY_API_KEY" = Some (String c k) ->
  http log (tavily_request (String c k) city) = inr r ->
  raise_for_status r = inl e ->
  search_city_info http getenv city log
  = (inr (VDict [("error", VStr ("Tavily API error: " +:+ msg e));
                 ("city", VStr city)]),
     log ++ [tavily_request (String c k) city]).
Proof.
  intros Hkey Hreq Hs.
  assert (Hcls : is_RequestException e = true).
  { unfold raise_for_status in Hs.
    repeat destruct (_ && _); try discriminate; by injection Hs as <-. }
  unfold search_city_info. rewrite Hkey.
  unfold try_except, search_city_info_body, requests_post.
  change (Request POST "https://api.tavily.com/search" [] _ 15)
    with (tavily_request (String c k) city).
  rewrite (send_ok_bind _ _ r) by exact Hreq.
  rewrite Hs, bind_lift_raise. unfold ret, city_info_handler.
  by rewrite Hcls.
Qed.

Lemma search_city_info_http_error_witness :
  exists e,
    search_city_info (refuses 401 "Unauthorized") (fun _ => Some "key")
                     "Rabat" []
    = (inr (VDict [("error", VStr ("Tavily API error: " +:+ msg e));
                   ("city", VStr "Rabat")]),
       [tavily_request "key" "Rabat"]).
Proof.
  eexists.
  apply (search_city_info_http_error
           (refuses 401 "Unauthorized") (fun _ => Some "key") "Rabat" []
           "k"%char "ey"
           (Response 401 "Unauthorized" (url (tavily_request "key" "Rabat"))
                     (raise ValueError ""))).
  - reflexivity.
  - reflexivity.
  - reflexivity.
Defined.

(** X12: with a key set, when the search endpoint answers with a JSON
    object that has no [results] member, the result has an empty [sources]
    list, and its [summary] is the [answer] member or, when that is missing
    too, "No summary available". *)
Theorem search_city_info_missing_keys (http : oracle)
    (getenv : string -> option string) (city : string) (log : list request)
    (c : ascii) (k : string) (r : response) (d : list (string * value)) :
  getenv "TAVILY_API_KEY" = Some (String c k) ->
  http log (tavily_request (String c k) city) = inr r ->
  raise_for_status r = inr tt ->
  json r = inr (VDict d) ->
  dict_lookup "results" d = None ->
  search_city_info http getenv city log
  = (inr (VDict
       [("city", VStr city);
        ("summary",
         default (VStr "No summary available") (dict_lookup "answer" d));
        ("sources", VList [])]),
     log ++ [tavily_request (String c k) city]).
Proof.
  intros Hkey Hreq Hs Hj Hres.
  unfold search_city_info. rewrite Hkey.
  unfold try_except, search_city_info_body, requests_post.
  change (Request POST "https://api.tavily.com/search" [] _ 15)
    with (tavily_request (String c k) city).
  rewrite (send_ok_bind _ _ r) by exact Hreq.
  rewrite Hs, bind_lift_ok, Hj. run_step. rewrite Hres. reflexivity.
Qed.

Lemma search_city_info_missing_keys_witness :
  search_city_info (scripted [VDict []]) (fun _ => Some "key") "Rabat" []
  = (inr (VDict [("city", VStr "Rabat");
                 ("summary", VStr "No summary available");
                 ("sources", VList [])]),
     [tavily_request "key" "Rabat"]).
Proof.
  apply (search_city_info_missing_keys
           (scripted [VDict []]) (fun _ => Some "key") "Rabat" []
           "k"%char "ey"
           (Response 200 "OK" (url (tavily_request "key" "Rabat"))
                     (ok (VDict [])))
           []).
  - reflexivity.
  - reflexivity.
  - reflexivity.
  - reflexivity.
  - reflexivity.
Defined.

(** *** [search_scholarships] *)

(** X13: [search_scholarships] is insensitive to the letter case of
    [country] and [level]: arguments that agree once lowercased give the same
    request and the same result, whatever the fields. *)
Theorem search_scholarships_case_insensitive {unicode : unicode_case} (http : oracle)
    (c c' f f' l l' : string) (log : list request) :
  lower c = lower c' -> lower l = lower l' ->
  search_scholarships http c f l log = search_scholarships http c' f' l' log.
Proof.
  intros Hc Hl.
  unfold search_scholarships, search_scholarships_live, _get_mock_scholarships.
  by rewrite Hc, Hl.
Qed.

Lemma search_scholarships_case_insensitive_witness :
  search_scholarships (unicode := sample_case) unreachable "MOROCCO" "Law" "PhD" []
  = search_scholarships (unicode := sample_case) unreachable "morocco" "Physics" "phd" [].
Proof.
  apply (search_scholarships_case_insensitive (unicode := sample_case)
           unreachable "MOROCCO" "morocco" "Law" "Physics" "PhD" "phd" []).
  - reflexivity.
  - reflexivity.
Defined.

(** X14: what the live source returns is handed back as it is: a non-empty
    JSON list is the result, and otherwise the [scholarships] member of a JSON
    object is the result, whatever that member holds; no entry is checked or
    filtered, and the built-in dataset is not consulted. *)
Theorem search_scholarships_live_passthrough {unicode : unicode_case} (http : oracle)
    (c f l : string) (log : list request) (r : response) (data : value) :
  http log (scholarships_request c l) = inr r ->
  raise_for_status r = inr tt ->
  json r = inr data ->
  (is_nonempty_list data = true ->
   search_scholarships http c f l log
   = (inr data, log ++ [scholarships_request c l]))
  /\ (forall v,
        is_nonempty_list data = false ->
        field "scholarships" data = Some v ->
        search_scholarships http c f l log
        = (inr v, log ++ [scholarships_request c l])).
Proof.
  intros Hreq Hs Hj.
  assert (Hrun : search_scholarships http c f l log
    = bind (try_except
              (if is_nonempty_list data then ret (Some data)
               else if is_dict_with "scholarships" data then
                 bind (lift (getitem_str data "scholarships"))
                      (fun v => ret (Some v))
               else ret None)
              (fun _ => ret None))
           (fun returned =>
              match returned with
              | Some v => ret v
              | None => ret (_get_mock_scholarships c f l)
              end) (log ++ [scholarships_request c l])).
  { unfold search_scholarships, bind at 1, try_except at 1,
      search_scholarships_live, requests_get.
    rewrite (send_ok_bind _ _ r) by exact Hreq.
    rewrite Hs, bind_lift_ok, Hj, bind_lift_ok. reflexivity. }
  rewrite Hrun. split.
  - intros Hne. by rewrite Hne.
  - intros v Hne Hf. rewrite Hne.
    destruct data as [| | | | | |d]; try discriminate. cbn [field] in Hf.
    unfold is_dict_with.
    rewrite bool_decide_eq_true_2 by (by apply (dict_lookup_Some_keys _ _ v)).
    by rewrite (getitem_str_dict _ _ _ Hf).
Qed.

Lemma search_scholarships_live_passthrough_witness :
  search_scholarships (unicode := sample_case) (answers (VList [VStr "not a scholarship"]))
                      "France" "Law" "master" []
  = (inr (VList [VStr "not a scholarship"]),
     [scholarships_request (unicode := sample_case) "France" "master"]).
Proof.
  destruct (search_scholarships_live_passthrough (unicode := sample_case)
              (answers (VList [VStr "not a scholarship"]))
              "France" "Law" "master" []
              (Response 200 "OK" (url (scholarships_request (unicode := sample_case) "France" "master"))
                        (ok (VList [VStr "not a scholarship"])))
              (VList [VStr "not a scholarship"])) as [Hlist _].
  - reflexivity.
  - reflexivity.
  - reflexivity.
  - apply Hlist. reflexivity.
Defined.

(** X15: when the request, the status check or the decoding raises, or the
    body is neither a non-empty list nor an object with a [scholarships]
    member, [search_scholarships] returns the built-in dataset: the list for
    France, Qatar or Morocco when the lowercased country is one of them, the
    default list otherwise; it is never empty and each entry has exactly the
    keys name, amount, deadline, requirements, description. *)
Theorem search_scholarships_unavailable_gives_dataset {unicode : unicode_case} (http : oracle)
    (c f l : string) (log : list request) :
  live_unavailable http log c l ->
  exists items,
    search_scholarships http c f l log
    = (inr (VList items), log ++ [scholarships_request c l])
    /\ items <> []
    /\ Forall (fun x => keys_of x = Some scholarship_keys) items
    /\ VList items
       = (if String.eqb (lower c) "france" then VList france_scholarships
          else if String.eqb (lower c) "qatar" then VList qatar_scholarships
          else if String.eqb (lower c) "morocco"
               then VList morocco_scholarships
          else VList default_scholarships).
Proof.
  intros Hun.
  destruct (mock_scholarships_shape c f l) as (items & Hmock & Hne & Hkeys).
  exists items. rewrite (search_scholarships_fallback _ _ _ _ _ Hun), Hmock.
  repeat split; try done.
  by rewrite <- Hmock, mock_scholarships_selection.
Qed.

Lemma search_scholarships_unavailable_gives_dataset_witness :
  exists items,
    search_scholarships (unicode := sample_case) (refuses 503 "Service Unavailable")
                        "Atlantis" "Law" "master" []
    = (inr (VList items), [scholarships_request (unicode := sample_case) "Atlantis" "master"])
    /\ items <> []
    /\ VList items = VList default_scholarships.
Proof.
  destruct (search_scholarships_unavailable_gives_dataset (unicode := sample_case)
              (refuses 503 "Service Unavailable") "Atlantis" "Law" "master" [])
    as (items & Hrun & Hne & _ & Hsel).
  - apply (status_raises _ _ _ _
             (Response 503 "Service Unavailable"
                       (url (scholarships_request (unicode := sample_case) "Atlantis" "master"))
                       (raise ValueError ""))
             (Exn (HTTPError 503)
                  ("503 Server Error: Service Unavailable for url: "
                   +:+ url (scholarships_request (unicode := sample_case) "Atlantis" "master")))).
    + reflexivity.
    + reflexivity.
  - exists items. by repeat split.
Defined.

End ToolExtras.

(* ===================================================================== *)
(** ** Further properties of the entry hook and of dispatch *)
(* ===================================================================== *)

Module AgentExtras.
Import Py Agents AgentSpec AgentProps.

Lemma hook_inv (ctx : CallbackContext) r st' :
  check_and_log_agent_entry ctx = inr (r, st') ->
  exists w,
    add_one (read_counter "user:agent_call_count" (state ctx)) = inr w
    /\ st' = <["temp:current_agent" := VStr (agent_name ctx)]>
               (<["user:agent_call_count" := w]> (state ctx))
    /\ r = if skip_requested (state ctx) then Some (skipped (agent_name ctx))
           else None.
Proof.
  intros H.
  destruct (add_one (read_counter "user:agent_call_count" (state ctx)))
    as [e|w] eqn:Hw.
  - unfold check_and_log_agent_entry, read_counter in *. by rewrite Hw in H.
  - rewrite (hook_runs ctx w Hw) in H. injection H as <- <-. by exists w.
Qed.

(** X16: when the entry hook returns, the state it leaves records the
    agent's name under [temp:current_agent] and a number under
    [user:agent_call_count], and every other key, [skip_processing] among
    them, holds what it held before. *)
Theorem entry_hook_frame (ctx : CallbackContext) (r : option Content)
    (st' : State) :
  check_and_log_agent_entry ctx = inr (r, st') ->
  st' !! "temp:current_agent" = Some (VStr (agent_name ctx))
  /\ (exists w, st' !! "user:agent_call_count" = Some w /\ is_number w = true)
  /\ forall k, k <> "temp:current_agent" -> k <> "user:agent_call_count" ->
               st' !! k = state ctx !! k.
Proof.
  intros H. destruct (hook_inv ctx r st' H) as (w & Hw & -> & _).
  split; [by rewrite lookup_insert_eq|]. split.
  - exists w. split; [apply hook_state_counter|].
    destruct (read_counter _ _); try discriminate; by injection Hw as <-.
  - intros k H1 H2. by apply hook_state_other.
Qed.

Lemma entry_hook_frame_witness :
  exists r st',
    check_and_log_agent_entry
      (mkCallbackContext "root_agent" {["skip_processing" := VBool true]})
    = inr (r, st')
    /\ st' !! "temp:current_agent" = Some (VStr "root_agent")
    /\ st' !! "skip_processing" = Some (VBool true).
Proof.
  assert (Hrun :
    check_and_log_agent_entry
      (mkCallbackContext "root_agent" {["skip_processing" := VBool true]})
    = inr (Some (skipped "root_agent"),
           <["temp:current_agent" := VStr "root_agent"]>
             (<["user:agent_call_count" := VInt 1]>
                {["skip_processing" := VBool true]}))).
  { vm_compute. reflexivity. }
  destruct (entry_hook_frame _ _ _ Hrun) as (Htemp & _ & Hframe).
  eexists _, _. split; [exact Hrun|]. split; [exact Htemp|].
  rewrite Hframe by done. vm_compute. reflexivity.
Defined.

Section Sessions.

Variable run_body : Agent -> State -> string -> list event * Content.

Lemma skipped_turn (st : State) (user_text : string) :
  skip_requested st = true -> counter_well_typed st = true ->
  exists st',
    turn run_body st user_text = inr (skipped "root_agent", st', [])
    /\ skip_requested st' = true /\ counter_well_typed st' = true.
Proof.
  intros Hskip Hnum.
  destruct (add_one_number _ Hnum) as (w & Hw & Hwn).
  destruct (turn_runs run_body st user_text w Hw) as (c & ev & Hturn & Hs).
  destruct (Hs Hskip) as [-> ->].
  eexists. split; [exact Hturn|]. split.
  - unfold skip_requested in *. by rewrite hook_state_other.
  - unfold counter_well_typed, read_counter. by rewrite hook_state_counter.
Qed.

(** X17: nothing resets [skip_processing]: in a session whose state has the
    flag set (to any true value), every turn is answered with the skipped
    marker, however many turns follow and whatever the requests are, and the
    flag is still set afterwards. *)
Theorem skip_processing_is_sticky (st : State) (requests : list string) :
  skip_requested st = true -> counter_well_typed st = true ->
  exists st',
    run_session run_body st requests
    = inr (st', replicate (length requests) (skipped "root_agent"))
    /\ skip_requested st' = true.
Proof.
  revert st. induction requests as [|user_text rest IH]; intros st Hskip Hnum.
  - by exists st.
  - destruct (skipped_turn st user_text Hskip Hnum)
      as (st1 & Hturn & Hskip1 & Hnum1).
    destruct (IH st1 Hskip1 Hnum1) as (st' & Hrest & Hskip').
    exists st'. cbn [run_session length replicate].
    rewrite Hturn. cbn [res_bind]. rewrite Hrest. by cbn [res_bind].
Qed.

(** X18: when the state holds something under [user:agent_call_count] that
    is not a number (a string, [None], a list, a dict), the entry hook raises
    [TypeError]; the turn and the rest of the session fail with that
    exception and no agent body runs, whether or not [skip_processing] is
    set. *)
Theorem bad_counter_fails_turn (st : State) (user_text : string)
    (rest : list string) :
  counter_well_typed st = false ->
  exists e,
    cls e = TypeError
    /\ check_and_log_agent_entry (mkCallbackContext "root_agent" st) = inl e
    /\ turn run_body st user_text = inl e
    /\ run_session run_body st (user_text :: rest) = inl e.
Proof.
  intros Hbad. unfold counter_well_typed in Hbad.
  assert (exists e, cls e = TypeError
            /\ add_one (read_counter "user:agent_call_count" st) = inl e)
    as (e & Hcls & He).
  { destruct (read_counter _ _); try discriminate;
      (eexists; split; [|reflexivity]; reflexivity). }
  assert (Hhook :
    check_and_log_agent_entry (mkCallbackContext "root_agent" st) = inl e).
  { unfold check_and_log_agent_entry, read_counter in *.
    cbn [state]. by rewrite He. }
  assert (Hturn : turn run_body st user_text = inl e).
  { unfold turn, run_agent. cbn [before_agent_callback root_agent name].
    by rewrite Hhook. }
  exists e. repeat split; try done.
  cbn [run_session]. by rewrite Hturn.
Qed.

(** X19: when [skip_processing] is absent or false, the turn returns the
    content and the events of the root agent's run unchanged; that run sees
    the state the hook left, with the incremented counter. *)
Theorem unskipped_turn_returns_body (st : State) (user_text : string) :
  skip_requested st = false -> counter_well_typed st = true ->
  exists w,
    add_one (read_counter "user:agent_call_count" st) = inr w
    /\ let st' := <["temp:current_agent" := VStr "root_agent"]>
                    (<["user:agent_call_count" := w]> st) in
       turn run_body st user_text
       = inr ((run_body root_agent st' user_text).2, st',
              (run_body root_agent st' user_text).1).
Proof.
  intros Hskip Hnum.
  destruct (add_one_number _ Hnum) as (w & Hw & _).
  exists w. split; [exact Hw|]. cbn zeta.
  unfold turn, run_agent. cbn [before_agent_callback root_agent name].
  rewrite (hook_runs (mkCallbackContext "root_agent" st) w) by exact Hw.
  cbn [res_bind state agent_name]. rewrite Hskip.
  by destruct (run_body _ _ _).
Qed.


End Sessions.

Lemma skip_processing_is_sticky_witness :
  exists st',
    run_session echo_body {["skip_processing" := VStr "yes"]}
                ["weather in Rabat"; "holidays in France"]
    = inr (st', [skipped "root_agent"; skipped "root_agent"]).
Proof.
  destruct (skip_processing_is_sticky echo_body
              {["skip_processing" := VStr "yes"]}
              ["weather in Rabat"; "holidays in France"])
    as (st' & Hrun & _).
  - vm_compute. reflexivity.
  - vm_compute. reflexivity.
  - by exists st'.
Defined.

Lemma bad_counter_fails_turn_witness :
  exists e,
    cls e = TypeError
    /\ run_session echo_body {["user:agent_call_count" := VStr "3"]}
                   ["weather in Rabat"; "holidays in France"]
       = inl e.
Proof.
  destruct (bad_counter_fails_turn echo_body
              {["user:agent_call_count" := VStr "3"]}
              "weather in Rabat" ["holidays in France"])
    as (e & Hcls & _ & _ & Hrun).
  - vm_compute. reflexivity.
  - by exists e.
Defined.

Lemma unskipped_turn_returns_body_witness :
  exists st',
    turn echo_body ∅ "weather in Rabat"
    = inr (mkContent [mkPart "weather in Rabat"] "model", st',
           [HandlerRun "root_agent"; GenerationCall "root_agent"]).
Proof.
  destruct (unskipped_turn_returns_body echo_body ∅ "weather in Rabat")
    as (w & _ & Hturn).
  - vm_compute. reflexivity.
  - vm_compute. reflexivity.
  - eexists. exact Hturn.
Defined.

End AgentExtras.
